(** * Book price monitor: scraper, CSV store and the two reports

    A shallow embedding of [book_price_monitor.py] and of its copy
    [bookshop_price_monitor.py]: the pagination loop of [scrape_books], the
    appending [save_to_csv], the two derivations behind the charts
    ([plot_cheapest_books], [plot_price_trends]) and [run_tracker].

    The libraries the scripts call are modelled by what the scripts observe of
    them: [requests.get] by its outcome per page, BeautifulSoup by the
    [.product_pod] elements of a page and the outcome of each navigation
    expression, the [csv] module by rows of fields, the file system by the one
    store file, matplotlib by the lists handed to it. *)

From Stdlib Require Import ZArith Ascii String List Bool Lia.
From Stdlib Require Import PrimFloat Uint63 FloatOps SpecFloat.
From Stdlib Require OrderedTypeEx.
From stdpp Require Import gmap strings list sorting pretty.

Local Open Scope string_scope.
Local Open Scope list_scope.
Local Open Scope Z_scope.

(** ** Python values and exceptions *)

(** The failures of [requests]: every exception the library raises derives from
    [requests.RequestException]. *)
Inductive request_error :=
  | Timeout
  | ConnectionError
  | HTTPError (status : Z)
  | OtherRequestError.

Inductive exn :=
  | RequestException (e : request_error)
  | AttributeError
  | TypeError
  | KeyError
  | IndexError
  | ValueError
  | ZeroDivisionError
  | FileNotFoundError.

(** The result of evaluating an expression or a call: a value, or the
    exception that propagates out of it. *)
Inductive result (A : Type) :=
  | Return (a : A)
  | Raise (e : exn).
Arguments Return {A} a.
Arguments Raise {A} e.

#[global] Instance result_ret : MRet result := λ A a, Return a.
#[global] Instance result_bind : MBind result := λ A B f m,
  match m with
  | Return a => f a
  | Raise e => Raise e
  end.
#[global] Instance result_fmap : FMap result := λ A B f m,
  match m with
  | Return a => Return (f a)
  | Raise e => Raise e
  end.

Definition raises {A} (m : result A) : Prop := ∃ e, m = Raise e.

(** Python's [float]: IEEE binary64 values with the operations the scripts
    apply to them. [float_of_str s] is [float(s)] on a [str], [None] when
    [float] raises [ValueError]; [str_of_float] is [str(x)], which [csv]
    applies to a non-string field; [float_lt] is [<]; [float_sum] is the
    builtin [sum] on a non-empty list of floats; [float_div_int x n] is
    [x / n] for an [int] [n] other than zero. *)
Class PyFloat := {
  float : Type;
  float_of_str : string → option float;
  str_of_float : float → string;
  float_lt : float → float → bool;
  float_sum : list float → float;
  float_div_int : float → Z → float
}.

(** ** Strings *)

Definition is_digit (c : ascii) : bool :=
  let n := nat_of_ascii c in (48 <=? n)%nat && (n <=? 57)%nat.

(** The ASCII characters [str.isspace] accepts. *)
Definition is_space (c : ascii) : bool :=
  let n := nat_of_ascii c in
  ((9 <=? n)%nat && (n <=? 13)%nat) || ((28 <=? n)%nat && (n <=? 32)%nat).

Fixpoint lstrip (s : string) : string :=
  match s with
  | String c s' => if is_space c then lstrip s' else s
  | EmptyString => EmptyString
  end.

Fixpoint rstrip (s : string) : string :=
  match s with
  | String c s' =>
      match rstrip s' with
      | EmptyString => if is_space c then EmptyString else String c EmptyString
      | r => String c r
      end
  | EmptyString => EmptyString
  end.

(** [s.strip()] *)
Definition strip (s : string) : string := rstrip (lstrip s).

(** The longest prefix of digits, and what follows it. *)
Fixpoint span_digits (s : string) : string * string :=
  match s with
  | String c s' =>
      if is_digit c then let '(d, r) := span_digits s' in (String c d, r)
      else (EmptyString, s)
  | EmptyString => (EmptyString, EmptyString)
  end.

(** A match of [\d+\.\d+] anchored at the start of [s]. Both runs of digits
    are greedy, and giving back digits of the first run cannot help: the
    character after a shorter run is a digit, not the dot. *)
Definition match_decimal (s : string) : option string :=
  match span_digits s with
  | (String c d, String "." r) =>
      match span_digits r with
      | (String c' d', _) => Some (String c d +:+ "." +:+ String c' d')
      | (EmptyString, _) => None
      end
  | _ => None
  end.

(** [re.search(r"\d+\.\d+", s)]: the leftmost match, [None] without one. *)
Fixpoint re_search_decimal (s : string) : option string :=
  match match_decimal s with
  | Some m => Some m
  | None =>
      match s with
      | String _ s' => re_search_decimal s'
      | EmptyString => None
      end
  end.

(** ** [sorted] *)

(** [sorted(l, key=key)] compares keys with [<] only and is stable. Inserting
    each element, from the last to the first, in front of the first element
    whose key is not smaller gives that list whenever [<] orders the keys. *)
Section Sorted.
Context {A K : Type} (lt : K → K → bool) (key : A → K).

Fixpoint insert_sorted (x : A) (l : list A) : list A :=
  match l with
  | [] => [x]
  | y :: l' =>
      if lt (key y) (key x) then y :: insert_sorted x l' else x :: y :: l'
  end.

Definition sorted (l : list A) : list A := foldr insert_sorted [] l.
End Sorted.

(** [sorted] on the keys of a dict whose keys are [str] or [None]: comparing
    [None] with anything raises [TypeError], and sorting two elements or more
    compares each of them. *)
Definition sorted_keys (ks : list (option string)) : result (list (option string)) :=
  if (length ks <=? 1)%nat then Return ks
  else
    match mapM id ks with
    | Some ss => Return (Some <$> sorted String.ltb id ss)
    | None => Raise TypeError
    end.

(** ** The [csv] module, by rows *)

(** A CSV file as the rows [csv.reader] yields and [csv.writer] writes; the
    quoting that makes the two inverse on rows of strings is left out. *)
Abbreviation csv_file := (list (list string)).

(** A row of [csv.DictReader]: a [dict] from field names to [str], or to
    [None] (the [restval]) for the fields a short row lacks. It is
    [dict(zip(fieldnames, row))], then [d[key] = None] for each key of
    [fieldnames[len(row):]]; a later duplicate of a key overwrites. The
    [restkey] entry of a long row has the key [None], which no lookup by a
    string sees. *)
Definition DictReader_row (fieldnames row : list string) : gmap string (option string) :=
  let d := foldl (λ d kv, <[kv.1 := Some kv.2]> d) ∅ (zip fieldnames row) in
  foldl (λ d k, <[k := None]> d) d (drop (length row) fieldnames).

Definition nonblank (row : list string) : bool :=
  match row with [] => false | _ => true end.

(** [csv.DictReader(f)]: the first row gives the field names, blank rows
    after it are skipped. *)
Definition DictReader (f : csv_file) : list (gmap string (option string)) :=
  match f with
  | [] => []
  | fieldnames :: rows => DictReader_row fieldnames <$> List.filter nonblank rows
  end.

(** [row[key]] *)
Definition getitem (row : gmap string (option string)) (key : string) : result (option string) :=
  match row !! key with
  | Some v => Return v
  | None => Raise KeyError
  end.

(** The truth value of a field: [None] and the empty string are false. *)
Definition truthy (v : option string) : bool :=
  match v with
  | Some (String _ _) => true
  | _ => false
  end.

(** [float(v)] on a field: [TypeError] on [None], [ValueError] on a string
    that is not a number. *)
Definition py_float `{PyFloat} (v : option string) : result float :=
  match v with
  | None => Raise TypeError
  | Some s =>
      match float_of_str s with
      | Some x => Return x
      | None => Raise ValueError
      end
  end.

(** ** [requests] and BeautifulSoup *)

(** One [.product_pod] element: the outcome of each navigation expression the
    scraper evaluates on it. *)
Record product_pod := {
  h3_a_title : result string;          (* item.h3.a["title"] *)
  price_color_text : result string;    (* item.select_one(".price_color").text *)
  availability_text : result string;   (* item.select_one(".availability").text *)
  p_class : result (list string)       (* item.p["class"] *)
}.

(** A response: its status and [soup.select(".product_pod")] on its text. *)
Record Response := {
  status_code : Z;
  product_pods : list product_pod
}.

(** [res.raise_for_status()] raises on the 4xx and 5xx statuses. *)
Definition raise_for_status (res : Response) : result unit :=
  if (400 <=? status_code res) && (status_code res <? 600)
  then Raise (RequestException (HTTPError (status_code res)))
  else Return tt.

(** What a run reads from outside: [requests.get] on a URL,
    and [date.today().isoformat()]. *)
Record world := {
  requests_get : string → request_error + Response;
  today_isoformat : string
}.

(** What the scripts print. *)
Inductive message :=
  | ErrorFetchingPage (page : nat) (e : request_error)
  | ScrapedPage (page : nat) (books : nat)
  | ScrapingBookData
  | SavedBooks (books : nat).

(** ** Data model *)

(** An item record: the [dict] the scraper builds for one book. *)
Record book `{PyFloat} := {
  title : string;
  price : float;
  stock : string;
  rating : string;
  date : string
}.

(** The state a run leaves behind and what it showed. *)
Record run `{PyFloat} := {
  files : gmap string csv_file;
  stdout : list message;
  (* the bars of the first chart, the points of the second *)
  charts : result (list (option string * float) * (list (option string) * list float))
}.

(** ** [book_price_monitor.py] *)

Module BookPriceMonitor.
Section Script.
Context `{PyFloat}.

Definition BASE_URL (page : nat) : string :=
  "http://books.toscrape.com/catalogue/page-" +:+ pretty page +:+ ".html".
Definition CSV_FILE : string := "books.csv".

(** The body of [for item in items]. *)
Definition scrape_item (today : string) (item : product_pod) : result book :=
  title ← h3_a_title item;
  price_text ← strip <$> price_color_text item;
  m ← match re_search_decimal price_text with
      | Some m => Return m
      | None => Raise AttributeError
      end;
  price ← py_float (Some m);
  stock ← strip <$> availability_text item;
  class ← p_class item;
  rating ← match class !! 1%nat with
           | Some r => Return r
           | None => Raise IndexError
           end;
  Return {| title := title; price := price; stock := stock;
            rating := rating; date := today |}.

(** [while True] of [scrape_books], from the state [page], [books] and
    what was printed so far; [None] when [fuel] iterations do not reach a
    [break]. An exception raised in the body outside the [try] leaves the
    function. The pause of [time.sleep] changes nothing the model holds. *)
Fixpoint scrape_loop (w : world) (today : string) (fuel page : nat)
    (books : list book) (out : list message)
    : option (result (list book) * list message) :=
  match fuel with
  | O => None
  | S fuel' =>
      let url := BASE_URL page in
      match requests_get w url with
      | inl e => Some (Return books, out ++ [ErrorFetchingPage page e])
      | inr res =>
          if status_code res =? 404 then Some (Return books, out)
          else
            match raise_for_status res with
            | Raise (RequestException e) =>
                Some (Return books, out ++ [ErrorFetchingPage page e])
            | Raise e => Some (Raise e, out)
            | Return _ =>
                let items := product_pods res in
                match items with
                | [] => Some (Return books, out)
                | _ =>
                    match mapM (scrape_item today) items with
                    | Raise e => Some (Raise e, out)
                    | Return new =>
                        scrape_loop w today fuel' (page + 1) (books ++ new)
                          (out ++ [ScrapedPage page (length items)])
                    end
                end
            end
      end
  end.

Definition scrape_books (w : world) (fuel : nat) (out : list message)
    : option (result (list book) * list message) :=
  let books := [] in
  let today := today_isoformat w in
  let page := 1%nat in
  scrape_loop w today fuel page books out.

Definition fieldnames : list string :=
  ["title"; "price"; "stock"; "rating"; "date"].

(** The row [csv.DictWriter] writes for one book. *)
Definition writerow (b : book) : list string :=
  [title b; str_of_float (price b); stock b; rating b; date b].

Definition save_to_csv (data : list book) (filename : string)
    (fs : gmap string csv_file) : gmap string csv_file :=
  let file_exists := bool_decide (is_Some (fs !! filename)) in
  (* open(filename, "a" if file_exists else "w") *)
  let f := if file_exists then default [] (fs !! filename) else [] in
  let f := if negb file_exists then f ++ [fieldnames] else f in
  <[filename := f ++ (writerow <$> data)]> fs.

(** The body of [for row in reader] of [plot_cheapest_books]. *)
Definition cheapest_row (row : gmap string (option string))
    : result (option string * float) :=
  t ← getitem row "title";
  p ← getitem row "price";
  x ← py_float p;
  Return (t, x).

(** [plot_cheapest_books]: the titles and prices handed to [plt.barh]. *)
Definition plot_cheapest_books (filename : string) (fs : gmap string csv_file)
    : result (list (option string * float)) :=
  match fs !! filename with
  | None => Raise FileNotFoundError
  | Some f =>
      books ← mapM cheapest_row (DictReader f);
      let books_sorted := take 10 (sorted float_lt snd books) in
      Return books_sorted
  end.

(** The body of [for row in reader] of [plot_price_trends].
    [setdefault] creates the key before [float] is evaluated; when [float]
    raises, the exception leaves the function and the dict with it. *)
Definition trends_row (price_by_date : gmap (option string) (list float))
    (row : gmap string (option string))
    : result (gmap (option string) (list float)) :=
  p ← getitem row "price";
  if truthy p then
    date_key ← getitem row "date";
    let prices := default [] (price_by_date !! date_key) in
    x ← py_float p;
    Return (<[date_key := prices ++ [x]]> price_by_date)
  else Return price_by_date.

Definition trends_rows (rows : list (gmap string (option string)))
    : result (gmap (option string) (list float)) :=
  foldl (λ d row, d ← d; trends_row d row) (Return ∅) rows.

(** [sum(prices) / len(prices)] *)
Definition average (prices : list float) : result float :=
  match prices with
  | [] => Raise ZeroDivisionError
  | _ => Return (float_div_int (float_sum prices) (Z.of_nat (length prices)))
  end.

(** The lines of [plot_price_trends] after the [with] block: the sorted dates
    and the average of each. *)
Definition averages (price_by_date : gmap (option string) (list float))
    : result (list (option string) * list float) :=
  dates ← sorted_keys (map_to_list price_by_date).*1;
  avg_prices ← mapM (λ d,
      match price_by_date !! d with
      | Some prices => average prices
      | None => Raise KeyError
      end) dates;
  Return (dates, avg_prices).

(** [plot_price_trends]: the dates and averages handed to [plt.plot]. *)
Definition plot_price_trends (filename : string) (fs : gmap string csv_file)
    : result (list (option string) * list float) :=
  match fs !! filename with
  | None => Raise FileNotFoundError
  | Some f =>
      price_by_date ← trends_rows (DictReader f);
      averages price_by_date
  end.

Definition run_tracker (w : world) (fuel : nat) (fs : gmap string csv_file)
    : option run :=
  match scrape_books w fuel [ScrapingBookData] with
  | None => None
  | Some (Raise e, out) =>
      Some {| files := fs; stdout := out; charts := Raise e |}
  | Some (Return new_data, out) =>
      let fs := save_to_csv new_data CSV_FILE fs in
      Some {| files := fs;
              stdout := out ++ [SavedBooks (length new_data)];
              charts := c ← plot_cheapest_books CSV_FILE fs;
                        t ← plot_price_trends CSV_FILE fs;
                        Return (c, t) |}
  end.
End Script.
End BookPriceMonitor.

(** ** [bookshop_price_monitor.py] *)

Module BookshopPriceMonitor.
Section Script.
Context `{PyFloat}.

Definition BASE_URL (page : nat) : string :=
  "http://books.toscrape.com/catalogue/page-" +:+ pretty page +:+ ".html".
Definition CSV_FILE : string := "books.csv".

(** The body of [for item in items]. *)
Definition scrape_item (today : string) (item : product_pod) : result book :=
  title ← h3_a_title item;
  price_text ← strip <$> price_color_text item;
  m ← match re_search_decimal price_text with
      | Some m => Return m
      | None => Raise AttributeError
      end;
  price ← py_float (Some m);
  stock ← strip <$> availability_text item;
  class ← p_class item;
  rating ← match class !! 1%nat with
           | Some r => Return r
           | None => Raise IndexError
           end;
  Return {| title := title; price := price; stock := stock;
            rating := rating; date := today |}.

(** [while True] of [scrape_books], from the state [page], [books] and
    what was printed so far; [None] when [fuel] iterations do not reach a
    [break]. An exception raised in the body outside the [try] leaves the
    function. The pause of [time.sleep] changes nothing the model holds. *)
Fixpoint scrape_loop (w : world) (today : string) (fuel page : nat)
    (books : list book) (out : list message)
    : option (result (list book) * list message) :=
  match fuel with
  | O => None
  | S fuel' =>
      let url := BASE_URL page in
      match requests_get w url with
      | inl e => Some (Return books, out ++ [ErrorFetchingPage page e])
      | inr res =>
          if status_code res =? 404 then Some (Return books, out)
          else
            match raise_for_status res with
            | Raise (RequestException e) =>
                Some (Return books, out ++ [ErrorFetchingPage page e])
            | Raise e => Some (Raise e, out)
            | Return _ =>
                let items := product_pods res in
                match items with
                | [] => Some (Return books, out)
                | _ =>
                    match mapM (scrape_item today) items with
                    | Raise e => Some (Raise e, out)
                    | Return new =>
                        scrape_loop w today fuel' (page + 1) (books ++ new)
                          (out ++ [ScrapedPage page (length items)])
                    end
                end
            end
      end
  end.

Definition scrape_books (w : world) (fuel : nat) (out : list message)
    : option (result (list book) * list message) :=
  let books := [] in
  let today := today_isoformat w in
  let page := 1%nat in
  scrape_loop w today fuel page books out.

Definition fieldnames : list string :=
  ["title"; "price"; "stock"; "rating"; "date"].

(** The row [csv.DictWriter] writes for one book. *)
Definition writerow (b : book) : list string :=
  [title b; str_of_float (price b); stock b; rating b; date b].

Definition save_to_csv (data : list book) (filename : string)
    (fs : gmap string csv_file) : gmap string csv_file :=
  let file_exists := bool_decide (is_Some (fs !! filename)) in
  (* open(filename, "a" if file_exists else "w") *)
  let f := if file_exists then default [] (fs !! filename) else [] in
  let f := if negb file_exists then f ++ [fieldnames] else f in
  <[filename := f ++ (writerow <$> data)]> fs.

(** The body of [for row in reader] of [plot_cheapest_books]. *)
Definition cheapest_row (row : gmap string (option string))
    : result (option string * float) :=
  t ← getitem row "title";
  p ← getitem row "price";
  x ← py_float p;
  Return (t, x).

(** [plot_cheapest_books]: the titles and prices handed to [plt.barh]. *)
Definition plot_cheapest_books (filename : string) (fs : gmap string csv_file)
    : result (list (option string * float)) :=
  match fs !! filename with
  | None => Raise FileNotFoundError
  | Some f =>
      books ← mapM cheapest_row (DictReader f);
      let books_sorted := take 10 (sorted float_lt snd books) in
      Return books_sorted
  end.

(** The body of [for row in reader] of [plot_price_trends].
    [setdefault] creates the key before [float] is evaluated; when [float]
    raises, the exception leaves the function and the dict with it. *)
Definition trends_row (price_by_date : gmap (option string) (list float))
    (row : gmap string (option string))
    : result (gmap (option string) (list float)) :=
  p ← getitem row "price";
  if truthy p then
    date_key ← getitem row "date";
    let prices := default [] (price_by_date !! date_key) in
    x ← py_float p;
    Return (<[date_key := prices ++ [x]]> price_by_date)
  else Return price_by_date.

Definition trends_rows (rows : list (gmap string (option string)))
    : result (gmap (option string) (list float)) :=
  foldl (λ d row, d ← d; trends_row d row) (Return ∅) rows.

(** [sum(prices) / len(prices)] *)
Definition average (prices : list float) : result float :=
  match prices with
  | [] => Raise ZeroDivisionError
  | _ => Return (float_div_int (float_sum prices) (Z.of_nat (length prices)))
  end.

(** The lines of [plot_price_trends] after the [with] block: the sorted dates
    and the average of each. *)
Definition averages (price_by_date : gmap (option string) (list float))
    : result (list (option string) * list float) :=
  dates ← sorted_keys (map_to_list price_by_date).*1;
  avg_prices ← mapM (λ d,
      match price_by_date !! d with
      | Some prices => average prices
      | None => Raise KeyError
      end) dates;
  Return (dates, avg_prices).

(** [plot_price_trends]: the dates and averages handed to [plt.plot]. *)
Definition plot_price_trends (filename : string) (fs : gmap string csv_file)
    : result (list (option string) * list float) :=
  match fs !! filename with
  | None => Raise FileNotFoundError
  | Some f =>
      price_by_date ← trends_rows (DictReader f);
      averages price_by_date
  end.

Definition run_tracker (w : world) (fuel : nat) (fs : gmap string csv_file)
    : option run :=
  match scrape_books w fuel [ScrapingBookData] with
  | None => None
  | Some (Raise e, out) =>
      Some {| files := fs; stdout := out; charts := Raise e |}
  | Some (Return new_data, out) =>
      let fs := save_to_csv new_data CSV_FILE fs in
      Some {| files := fs;
              stdout := out ++ [SavedBooks (length new_data)];
              charts := c ← plot_cheapest_books CSV_FILE fs;
                        t ← plot_price_trends CSV_FILE fs;
                        Return (c, t) |}
  end.
End Script.
End BookshopPriceMonitor.

(** ** Binary64 floats on short decimals *)

(** An instance of [PyFloat] on the primitive binary64 floats, to run the
    scripts on concrete pages and stores. [float] and [str] are implemented on
    the plain decimal literals ([12], [12.], [.5], [51.77]) whose digits read
    as an integer [n] below [2^53] with at most 22 decimals: there [n] and the
    power of ten are exact floats and their quotient is the correctly rounded
    value, the one [float] returns, and [str] prints the shortest such
    literal that reads back as the float. The other spellings [float] accepts
    (signs, exponents, [inf], [nan], underscores, surrounding blanks) and the
    floats [str] prints with an exponent or with sixteen digits or more are
    outside this instance, which answers [None] and the empty string there:
    no example below uses them. *)
Module Binary64.

Fixpoint digits_value (s : string) (acc : Z) : Z :=
  match s with
  | String c s' => digits_value s' (10 * acc + (Z.of_nat (nat_of_ascii c) - 48))
  | EmptyString => acc
  end.

(** The digits [n] and the number of decimals [k] of a literal [n / 10^k]. *)
Definition decimal_of_str (s : string) : option (Z * nat) :=
  let '(i, r) := span_digits s in
  match r with
  | EmptyString =>
      match i with
      | EmptyString => None
      | _ => Some (digits_value i 0, 0%nat)
      end
  | String "." f =>
      let '(d, r') := span_digits f in
      match r', i +:+ d with
      | EmptyString, String _ _ => Some (digits_value (i +:+ d) 0, String.length d)
      | _, _ => None
      end
  | _ => None
  end.

Definition of_Z (n : Z) : PrimFloat.float := PrimFloat.of_uint63 (Uint63.of_Z n).

Definition quotient (n : Z) (k : nat) : PrimFloat.float :=
  PrimFloat.div (of_Z n) (of_Z (10 ^ Z.of_nat k)).

Definition of_str (s : string) : option PrimFloat.float :=
  match decimal_of_str s with
  | Some (n, k) =>
      if (n <? 2 ^ 53) && (k <=? 22)%nat then Some (quotient n k) else None
  | None => None
  end.

(** [m * 2^e * 10^k] rounded to the nearest integer, ties to even. *)
Definition scaled (m e : Z) (k : nat) : Z :=
  let num := m * 10 ^ Z.of_nat k in
  if 0 <=? e then num * 2 ^ e
  else
    let d := 2 ^ (- e) in
    let q := num / d in
    let r := num mod d in
    if 2 * r <? d then q
    else if d <? 2 * r then q + 1
    else if Z.even q then q else q + 1.

(** The fewest decimals [k] with which a literal reads back as [x]. *)
Fixpoint shortest (x : PrimFloat.float) (m e : Z) (k fuel : nat) : option (Z * nat) :=
  match fuel with
  | O => None
  | S fuel' =>
      let n := scaled m e k in
      if (n <? 2 ^ 53) && PrimFloat.eqb (quotient n k) x then Some (n, k)
      else shortest x m e (S k) fuel'
  end.

Fixpoint zeros (n : nat) : string :=
  match n with
  | O => EmptyString
  | S n' => String "0" (zeros n')
  end.

(** [n / 10^k] in positional notation, with at least one decimal. *)
Definition positional (n : Z) (k : nat) : string :=
  let ds := pretty (Z.to_N n) in
  let ds := zeros (S k - String.length ds) +:+ ds in
  let i := (String.length ds - k)%nat in
  substring 0 i ds +:+ "." +:+
    match k with
    | O => "0"
    | _ => substring i k ds
    end.

Definition to_str (x : PrimFloat.float) : string :=
  match Prim2SF x with
  | S754_zero false => "0.0"
  | S754_finite false m e =>
      if PrimFloat.ltb x (quotient 1 4) then EmptyString
      else
        match shortest x (Zpos m) e 0 23 with
        | Some (n, k) => positional n k
        | None => EmptyString
        end
  | _ => EmptyString
  end.

(** The builtin [sum] from the left; the compensated summation of recent
    interpreters agrees with it when the partial sums are exact. *)
Definition sum (xs : list PrimFloat.float) : PrimFloat.float :=
  foldl PrimFloat.add (of_Z 0) xs.

Definition div_int (x : PrimFloat.float) (n : Z) : PrimFloat.float :=
  PrimFloat.div x (of_Z n).

#[global] Instance binary64 : PyFloat := {|
  float := PrimFloat.float;
  float_of_str := of_str;
  str_of_float := to_str;
  float_lt := PrimFloat.ltb;
  float_sum := sum;
  float_div_int := div_int
|}.
End Binary64.

(** ** Vocabulary of the properties *)

Section Vocabulary.
Context `{PyFloat}.
Import BookPriceMonitor.

(** The loop of [scrape_books] goes from the state [(page, books, out)] to a
    later state through iterations that scrape a page and continue. *)
Inductive iterates (w : world) (today : string)
    : nat → list book → list message → nat → list book → list message → Prop :=
  | iterates_here page books out :
      iterates w today page books out page books out
  | iterates_next page books out res new page' books' out' :
      requests_get w (BASE_URL page) = inr res →
      status_code res ≠ 404 →
      raise_for_status res = Return tt →
      product_pods res ≠ [] →
      mapM (scrape_item today) (product_pods res) = Return new →
      iterates w today (page + 1) (books ++ new)
        (out ++ [ScrapedPage page (length (product_pods res))])
        page' books' out' →
      iterates w today page books out page' books' out'.

(** The fetch of a page ends the pagination: a 404 status, or a response that
    passes [raise_for_status] and has no item. *)
Definition ends_pagination (w : world) (page : nat) : Prop :=
  ∃ res, requests_get w (BASE_URL page) = inr res ∧
    (status_code res = 404 ∨
     (raise_for_status res = Return tt ∧ product_pods res = [])).

(** The fetch of a page fails with the transport error [e]: [requests.get]
    raises it, or the status is a 4xx or 5xx other than 404. *)
Definition fetch_fails (w : world) (page : nat) (e : request_error) : Prop :=
  requests_get w (BASE_URL page) = inl e ∨
  ∃ res, requests_get w (BASE_URL page) = inr res ∧
    status_code res ≠ 404 ∧
    raise_for_status res = Raise (RequestException e).

Definition is_scraped_page (m : message) : Prop :=
  ∃ page n, m = ScrapedPage page n.

(** The rows of the store file, without its first row. *)
Definition data_rows (fs : gmap string csv_file) (filename : string)
    : list (list string) :=
  match fs !! filename with
  | Some (_ :: rows) => rows
  | _ => []
  end.

(** A record has a price when its field is a non-empty string. *)
Definition priced (row : gmap string (option string)) : bool :=
  match row !! "price" with
  | Some p => truthy p
  | None => false
  end.

(** The price field is missing: [None] or the empty string. *)
Definition blank_price (row : gmap string (option string)) : bool :=
  match row !! "price" with
  | Some p => negb (truthy p)
  | None => false
  end.

(** The price field is a non-empty string that [float] does not read. *)
Definition malformed_price (row : gmap string (option string)) : Prop :=
  ∃ s, row !! "price" = Some (Some s) ∧ s ≠ EmptyString ∧ float_of_str s = None.

(** The price of a record whose field is a string that [float] reads. *)
Definition price_of (row : gmap string (option string)) : option float :=
  match row !! "price" with
  | Some (Some s) => float_of_str s
  | _ => None
  end.

Definition date_of (row : gmap string (option string)) : option string :=
  match row !! "date" with
  | Some (Some s) => Some s
  | _ => None
  end.

(** The title and price of a record, as the first chart shows them. *)
Definition entry_of (row : gmap string (option string))
    : option (option string * float) :=
  match row !! "title", price_of row with
  | Some t, Some x => Some (t, x)
  | _, _ => None
  end.

(** [<] orders the values of [ps]: it is asymmetric and its negation is
    transitive on them, as it is on floats other than NaN. *)
Definition orders (ps : list float) : Prop :=
  (∀ a b, a ∈ ps → b ∈ ps → float_lt a b = true → float_lt b a = false) ∧
  (∀ a b c, a ∈ ps → b ∈ ps → c ∈ ps →
     float_lt a b = false → float_lt b c = false → float_lt a c = false).

(** A check of [orders] by enumeration. *)
Definition orders_check (ps : list float) : bool :=
  forallb (λ a, forallb (λ b,
    implb (float_lt a b) (negb (float_lt b a)) &&
    forallb (λ c,
      implb (negb (float_lt a b) && negb (float_lt b c)) (negb (float_lt a c)))
      ps) ps) ps.

(** Two prices are equal for [sorted]: neither is smaller. *)
Definition same_price (a b : float) : bool :=
  negb (float_lt a b) && negb (float_lt b a).

(** A record the second derivation can use: a price field that is blank, or
    that [float] reads next to a date that is a string. *)
Definition trend_ready (row : gmap string (option string)) : Prop :=
  is_Some (row !! "price") ∧
  (priced row = true → is_Some (date_of row) ∧ is_Some (price_of row)).

(** The prices recorded on a date, in the order of the store. *)
Definition prices_on (d : option string) (rows : list (gmap string (option string)))
    : list float :=
  omap (λ row,
    if priced row && bool_decide (row !! "date" = Some d)
    then price_of row else None) rows.

(** [sum(prices) / len(prices)] as a value. *)
Definition mean (prices : list float) : float :=
  float_div_int (float_sum prices) (Z.of_nat (length prices)).
End Vocabulary.

(** ** Sample pages and stores *)

Module Sample.
Import Binary64.

Definition pod (t p : string) : product_pod :=
  {| h3_a_title := Return t;
     price_color_text := Return p;
     availability_text := Return "  In stock  ";
     p_class := Return ["star-rating"; "Three"] |}.

Definition ok (items : list product_pod) : request_error + Response :=
  inr {| status_code := 200; product_pods := items |}.

Definition not_found : request_error + Response :=
  inr {| status_code := 404; product_pods := [] |}.

Definition attic : book :=
  {| title := "A Light in the Attic"; price := quotient 5177 2;
     stock := "In stock"; rating := "Three"; date := "2024-01-03" |}.

Definition velvet : book :=
  {| title := "Tipping the Velvet"; price := quotient 5374 2;
     stock := "In stock"; rating := "Three"; date := "2024-01-03" |}.

(** A catalogue of two pages of one book each; the third page is not found. *)
Definition two_pages : world :=
  {| requests_get := λ url,
       if decide (url = BookPriceMonitor.BASE_URL 1)
       then ok [pod "A Light in the Attic" "£51.77"]
       else if decide (url = BookPriceMonitor.BASE_URL 2)
       then ok [pod "Tipping the Velvet" "£53.74"]
       else not_found;
     today_isoformat := "2024-01-03" |}.

(** The same catalogue when the fetch of the second page times out. *)
Definition timeout_on_page_2 : world :=
  {| requests_get := λ url,
       if decide (url = BookPriceMonitor.BASE_URL 1)
       then ok [pod "A Light in the Attic" "£51.77"]
       else if decide (url = BookPriceMonitor.BASE_URL 2)
       then inl Timeout
       else not_found;
     today_isoformat := "2024-01-03" |}.

Definition header : list string := ["title"; "price"; "stock"; "rating"; "date"].

(** A store with one row of an earlier run. *)
Definition one_row : gmap string csv_file :=
  {[ "books.csv" := [header; ["Soumission"; "50.1"; "In stock"; "One"; "2024-01-02"]] ]}.

(** The store of scenario B. *)
Definition scenario_B : gmap string csv_file :=
  {[ "books.csv" :=
       [header;
        ["Sharp Objects"; "10"; "In stock"; "Four"; "2024-01-01"];
        ["Sapiens"; "15"; "In stock"; "Five"; "2024-01-02"];
        ["The Requiem Red"; "20"; "In stock"; "One"; "2024-01-01"]] ]}.

(** A store with a price that is not a number. *)
Definition with_malformed_price : gmap string csv_file :=
  {[ "books.csv" :=
       [header;
        ["Sharp Objects"; "10"; "In stock"; "Four"; "2024-01-01"];
        ["Sapiens"; "abc"; "In stock"; "Five"; "2024-01-01"]] ]}.

(** A store with an empty price. *)
Definition with_blank_price : gmap string csv_file :=
  {[ "books.csv" :=
       [header;
        ["Sharp Objects"; "10"; "In stock"; "Four"; "2024-01-01"];
        ["Sapiens"; EmptyString; "In stock"; "Five"; "2024-01-02"];
        ["The Requiem Red"; "20"; "In stock"; "One"; "2024-01-01"]] ]}.

(** Twelve records, two of them at the lowest price. *)
Definition twelve_file : csv_file :=
  header ::
  ((λ tp : string * string, [tp.1; tp.2; "In stock"; "One"; "2024-01-01"]) <$>
   [("a", "30"); ("b", "12.5"); ("c", "45"); ("d", "12.5"); ("e", "20");
    ("f", "99"); ("g", "50"); ("h", "60"); ("i", "70"); ("j", "80");
    ("k", "90"); ("l", "95")]).

Definition twelve : gmap string csv_file := {[ "books.csv" := twelve_file ]}.

Definition twelve_entries : list (option string * float) :=
  [(Some "a", of_Z 30); (Some "b", quotient 125 1); (Some "c", of_Z 45);
   (Some "d", quotient 125 1); (Some "e", of_Z 20); (Some "f", of_Z 99);
   (Some "g", of_Z 50); (Some "h", of_Z 60); (Some "i", of_Z 70);
   (Some "j", of_Z 80); (Some "k", of_Z 90); (Some "l", of_Z 95)].
End Sample.

(** ** Vocabulary of the further properties *)

Section FurtherVocabulary.
Context `{PyFloat}.
Import BookPriceMonitor.

(** The iteration of the loop on [page] scrapes the page and goes on: the
    fetch succeeds with a status that is neither 404 nor an error, the page
    has items and every item is extracted. *)
Definition continues (w : world) (page : nat) : Prop :=
  ∃ res new,
    requests_get w (BASE_URL page) = inr res ∧
    status_code res ≠ 404 ∧
    raise_for_status res = Return tt ∧
    product_pods res ≠ [] ∧
    mapM (scrape_item (today_isoformat w)) (product_pods res) = Return new.

(** The sum of the counts of the [Scraped page] lines. *)
Definition scraped_total (out : list message) : nat :=
  sum_list_with (λ m, match m with ScrapedPage _ n => n | _ => 0%nat end) out.

(** The bar of a book in the first chart. *)
Definition chart_entry (b : book) : option string * float :=
  (Some (title b), price b).

(** [str] and [float] are inverse on the prices of the batch, and [str] of a
    price is not empty. *)
Definition prices_round_trip (data : list book) : Prop :=
  ∀ b, b ∈ data →
    str_of_float (price b) ≠ EmptyString ∧
    float_of_str (str_of_float (price b)) = Some (price b).

End FurtherVocabulary.






Module MoreSamples.
Import Binary64.

(** A pod whose [p] element has a single class. *)
Definition pod_without_rating : product_pod :=
  {| h3_a_title := Return "Soumission";
     price_color_text := Return "£50.10";
     availability_text := Return "In stock";
     p_class := Return ["star-rating"] |}.

(** A catalogue whose second page holds an item without a rating. *)
Definition bad_item_on_page_2 : world :=
  {| requests_get := λ url,
       if decide (url = BookPriceMonitor.BASE_URL 1)
       then Sample.ok [Sample.pod "A Light in the Attic" "£51.77"]
       else if decide (url = BookPriceMonitor.BASE_URL 2)
       then Sample.ok [Sample.pod "Tipping the Velvet" "£53.74"; pod_without_rating]
       else Sample.not_found;
     today_isoformat := "2024-01-03" |}.

(** A catalogue that answers every page with the same book. *)
Definition endless : world :=
  {| requests_get := λ _, Sample.ok [Sample.pod "A Light in the Attic" "£51.77"];
     today_isoformat := "2024-01-03" |}.

(** A catalogue whose first page is not found. *)
Definition empty_catalogue : world :=
  {| requests_get := λ _, Sample.not_found;
     today_isoformat := "2024-01-03" |}.

(** The catalogue of two pages with one more page after them. *)
Definition three_pages : world :=
  {| requests_get := λ url,
       if decide (url = BookPriceMonitor.BASE_URL 1)
       then Sample.ok [Sample.pod "A Light in the Attic" "£51.77"]
       else if decide (url = BookPriceMonitor.BASE_URL 2)
       then Sample.ok [Sample.pod "Tipping the Velvet" "£53.74"]
       else if decide (url = BookPriceMonitor.BASE_URL 3)
       then Sample.not_found
       else Sample.ok [pod_without_rating];
     today_isoformat := "2024-01-03" |}.

Definition soumission : book :=
  {| title := "Soumission"; price := quotient 501 1;
     stock := "In stock"; rating := "One"; date := "2024-01-02" |}.
End MoreSamples.

(** * Properties of [book_price_monitor.py] *)

Section Persister.
Context `{PyFloat}.
Import BookPriceMonitor.

Lemma save_to_csv_existing (data : list book) filename (fs : gmap string csv_file) f :
  fs !! filename = Some f →
  save_to_csv data filename fs = <[filename := f ++ (writerow <$> data)]> fs.
Proof.
  intros Hf. unfold save_to_csv.
  rewrite bool_decide_eq_true_2 by eauto.
  by rewrite Hf.
Qed.

Lemma save_to_csv_missing (data : list book) filename (fs : gmap string csv_file) :
  fs !! filename = None →
  save_to_csv data filename fs = <[filename := fieldnames :: (writerow <$> data)]> fs.
Proof.
  intros Hf. unfold save_to_csv.
  rewrite bool_decide_eq_false_2; [done |].
  intros [f Hsome]. congruence.
Qed.

(** C10: the header is decided by the existence of the store file, not by
    its content: when the file exists and holds no row at all, the file after
    [save_to_csv] holds the rows of the batch and nothing else, so no header
    row is written; more generally an existing file of any content receives
    the rows of the batch after that content. *)
Theorem save_to_csv_empty_file_no_header
    (data : list book) filename (fs : gmap string csv_file) :
  (fs !! filename = Some [] →
   save_to_csv data filename fs !! filename = Some (writerow <$> data)) ∧
  (∀ f, fs !! filename = Some f →
   save_to_csv data filename fs !! filename = Some (f ++ (writerow <$> data))).
Proof.
  split.
  - intros Hf. rewrite (save_to_csv_existing _ _ _ [] Hf).
    by rewrite lookup_insert_eq.
  - intros f Hf. rewrite (save_to_csv_existing _ _ _ f Hf).
    by rewrite lookup_insert_eq.
Qed.
End Persister.

Lemma save_to_csv_empty_file_no_header_witness :
  let fs : gmap string csv_file := {[ BookPriceMonitor.CSV_FILE := [] ]} in
  fs !! BookPriceMonitor.CSV_FILE = Some [] ∧
  BookPriceMonitor.save_to_csv [Sample.attic] BookPriceMonitor.CSV_FILE fs
    !! BookPriceMonitor.CSV_FILE
  = Some [["A Light in the Attic"; "51.77"; "In stock"; "Three"; "2024-01-03"]].
Proof.
  split; [reflexivity |].
  apply (proj1 (save_to_csv_empty_file_no_header (H := Binary64.binary64)
                  [Sample.attic] BookPriceMonitor.CSV_FILE
                  {[ BookPriceMonitor.CSV_FILE := [] ]})).
  reflexivity.
Defined.

(** ** The pagination loop *)

Section Scraper.
Context `{PyFloat}.
Import BookPriceMonitor.

Lemma mapM_result_Forall2 {A B} (f : A → result B) l k :
  mapM f l = Return k → Forall2 (λ x y, f x = Return y) l k.
Proof.
  revert k. induction l as [|x l IH]; intros k; simpl.
  - intros [= <-]. constructor.
  - destruct (f x) as [y|e] eqn:Hx; simpl; [|done].
    destruct (mapM f l) as [k'|e] eqn:Hl; simpl; [|done].
    intros [= <-]. constructor; [done | by apply IH].
Qed.

Lemma mapM_result_length {A B} (f : A → result B) l k :
  mapM f l = Return k → length k = length l.
Proof.
  intros Hk. symmetry. by eapply Forall2_length, mapM_result_Forall2.
Qed.

Lemma scrape_item_date today item b :
  scrape_item today item = Return b → date b = today.
Proof.
  unfold scrape_item. intros Hb.
  destruct (h3_a_title item); simpl in Hb; [|done].
  destruct (price_color_text item); simpl in Hb; [|done].
  destruct (re_search_decimal _); simpl in Hb; [|done].
  destruct (float_of_str _); simpl in Hb; [|done].
  destruct (availability_text item); simpl in Hb; [|done].
  destruct (p_class item) as [cls|]; simpl in Hb; [|done].
  destruct (cls !! 1%nat); simpl in Hb; [|done].
  by injection Hb as <-.
Qed.

Lemma scrape_items_date today items new :
  mapM (scrape_item today) items = Return new →
  Forall (λ b, date b = today) new.
Proof.
  intros Hnew. apply mapM_result_Forall2 in Hnew.
  induction Hnew as [|item b items new Hb _ IH]; constructor; [|done].
  by eapply scrape_item_date.
Qed.

Lemma scrape_loop_date w today fuel : ∀ page books out books' out',
  Forall (λ b, date b = today) books →
  scrape_loop w today fuel page books out = Some (Return books', out') →
  Forall (λ b, date b = today) books'.
Proof.
  induction fuel as [|fuel IH]; intros page books out books' out' Hbooks; simpl; [done|].
  destruct (requests_get w (BASE_URL page)) as [e|res]; [by intros [= <- _]|].
  destruct (status_code res =? 404); [by intros [= <- _]|].
  destruct (raise_for_status res) as [[]|[]]; try done; try by intros [= <- _].
  destruct (product_pods res) as [|item items] eqn:Hitems; [by intros [= <- _]|].
  destruct (mapM _ (item :: items)) as [new|e] eqn:Hnew; [|done].
  apply IH, Forall_app. split; [done | by eapply scrape_items_date].
Qed.

Lemma iterates_page_le w today page books out page' books' out' :
  iterates w today page books out page' books' out' → (page ≤ page')%nat.
Proof. induction 1; lia. Qed.

Lemma iterates_loop w today page books out page' books' out' :
  iterates w today page books out page' books' out' →
  ∀ fuel, scrape_loop w today (page' - page + fuel) page books out
          = scrape_loop w today fuel page' books' out'.
Proof.
  induction 1 as [page books out
                 |page books out res new page' books' out'
                    Hget H404 Hstatus Hitems Hnew Hrest IH]; intros fuel.
  - by replace (page - page + fuel)%nat with fuel by lia.
  - apply iterates_page_le in Hrest.
    replace (page' - page + fuel)%nat
      with (S (page' - (page + 1) + fuel)) by lia.
    simpl. rewrite Hget.
    rewrite (proj2 (Z.eqb_neq _ _) H404), Hstatus.
    destruct (product_pods res) as [|item items] eqn:Hpods; [done|].
    rewrite Hnew. apply IH.
Qed.

Lemma iterates_stdout w today page books out page' books' out' :
  iterates w today page books out page' books' out' →
  ∃ msgs, out' = out ++ msgs ∧ Forall is_scraped_page msgs.
Proof.
  induction 1 as [page books out
                 |page books out res new page' books' out' _ _ _ _ _ _ IH].
  - exists []. by rewrite app_nil_r.
  - destruct IH as (msgs & -> & Hmsgs).
    exists (ScrapedPage page (length (product_pods res)) :: msgs).
    split; [by rewrite <- app_assoc|].
    constructor; [by eexists _, _ | done].
Qed.

Lemma iterates_books w today page books out page' books' out' :
  iterates w today page books out page' books' out' →
  (length books + (page' - page) ≤ length books')%nat.
Proof.
  induction 1 as [page books out
                 |page books out res new page' books' out'
                    _ _ _ Hitems Hnew Hrest IH]; [lia|].
  apply iterates_page_le in Hrest.
  rewrite length_app, (mapM_result_length _ _ _ Hnew) in IH.
  destruct (product_pods res); [done|]. simpl in IH. lia.
Qed.

Lemma scrape_loop_end w today fuel page books out :
  ends_pagination w page →
  scrape_loop w today (S fuel) page books out = Some (Return books, out).
Proof.
  intros (res & Hget & Hres). simpl. rewrite Hget.
  destruct Hres as [->|[Hstatus Hitems]]; [done|].
  destruct (status_code res =? 404); [done|].
  by rewrite Hstatus, Hitems.
Qed.

Lemma scrape_loop_error w today fuel page books out e :
  fetch_fails w page e →
  scrape_loop w today (S fuel) page books out
  = Some (Return books, out ++ [ErrorFetchingPage page e]).
Proof.
  intros [Hget|(res & Hget & H404 & Hstatus)]; simpl; rewrite Hget; [done|].
  by rewrite (proj2 (Z.eqb_neq _ _) H404), Hstatus.
Qed.

(** Every way the loop stops: after iterations that scraped a page each, the
    pagination ends, a fetch fails, or the extraction of a page raises. *)
Lemma scrape_loop_inv w today fuel : ∀ page books out r out',
  scrape_loop w today fuel page books out = Some (r, out') →
  ∃ page' books' out0,
    iterates w today page books out page' books' out0 ∧
    ((ends_pagination w page' ∧ r = Return books' ∧ out' = out0) ∨
     (∃ e, fetch_fails w page' e ∧ r = Return books' ∧
           out' = out0 ++ [ErrorFetchingPage page' e]) ∨
     (∃ res e, requests_get w (BASE_URL page') = inr res ∧
               status_code res ≠ 404 ∧ raise_for_status res = Return tt ∧
               mapM (scrape_item today) (product_pods res) = Raise e ∧
               r = Raise e ∧ out' = out0)).
Proof.
  induction fuel as [|fuel IH]; intros page books out r out'; simpl; [done|].
  destruct (requests_get w (BASE_URL page)) as [e|res] eqn:Hget.
  { intros [= <- <-]. eexists _, _, _. split; [apply iterates_here|].
    right. left. exists e. split; [by left | done]. }
  destruct (status_code res =? 404) eqn:H404.
  { intros [= <- <-]. eexists _, _, _. split; [apply iterates_here|].
    left. split; [|done]. exists res. split; [done|]. left. by apply Z.eqb_eq. }
  apply Z.eqb_neq in H404.
  destruct (raise_for_status res) as [[]|e] eqn:Hstatus.
  - destruct (product_pods res) as [|item items] eqn:Hitems.
    { intros [= <- <-]. eexists _, _, _. split; [apply iterates_here|].
      left. split; [|done]. exists res. split; [done|]. by right. }
    destruct (mapM (scrape_item today) (item :: items)) as [new|e] eqn:Hnew.
    + intros Hrest. apply IH in Hrest as (page' & books' & out0 & Hit & Hstop).
      exists page', books', out0. split; [|done].
      eapply iterates_next; try done; rewrite Hitems; done.
    + intros [= <- <-]. eexists _, _, _. split; [apply iterates_here|].
      right. right. exists res, e. by rewrite Hitems.
  - assert (e = RequestException (HTTPError (status_code res))) as ->.
    { unfold raise_for_status in Hstatus.
      destruct (_ && _); [by injection Hstatus as <- | done]. }
    intros [= <- <-]. eexists _, _, _. split; [apply iterates_here|].
    right. left. eexists. split; [|done]. right. by exists res.
Qed.

(** C8: when the pages before [page] were scraped and the fetch of [page]
    answers 404, or answers a page without items, [scrape_books] returns:
    with fuel for [page] iterations its result is the list of the records
    gathered on the earlier pages, and it printed nothing but the
    [Scraped page] lines of those pages, so no error is reported. *)
Theorem pagination_end_returns_batch w fuel out page books out' :
  iterates w (today_isoformat w) 1 [] out page books out' →
  ends_pagination w page →
  (page ≤ fuel)%nat →
  scrape_books w fuel out = Some (Return books, out') ∧
  ∃ msgs, out' = out ++ msgs ∧ Forall is_scraped_page msgs.
Proof.
  intros Hit Hend Hfuel. split; [|by eapply iterates_stdout].
  pose proof (iterates_page_le _ _ _ _ _ _ _ _ Hit) as Hle.
  unfold scrape_books.
  replace fuel with (page - 1 + S (fuel - page))%nat by lia.
  rewrite (iterates_loop _ _ _ _ _ _ _ _ Hit).
  by apply scrape_loop_end.
Qed.

(** C7: every record of the batch [scrape_books] returns carries the date
    read once before the loop, the date of the start of the run. *)
Theorem scrape_books_same_capture_date w fuel out books out' :
  scrape_books w fuel out = Some (Return books, out') →
  Forall (λ b, date b = today_isoformat w) books.
Proof.
  unfold scrape_books. apply scrape_loop_date. constructor.
Qed.

(** C1, amended: when the pages before [page] were scraped and the fetch of
    [page] fails with a transport error, the loop stops and the error is
    printed, but the run is not abandoned: [scrape_books] returns the records
    of the earlier pages, at least one for each of them, and [run_tracker]
    saves them, so the store file gains exactly their rows. *)
Theorem fetch_error_keeps_earlier_pages w fuel fs page books out e :
  iterates w (today_isoformat w) 1 [] [ScrapingBookData] page books out →
  fetch_fails w page e →
  (page ≤ fuel)%nat →
  ∃ r, run_tracker w fuel fs = Some r ∧
    stdout r = out ++ [ErrorFetchingPage page e; SavedBooks (length books)] ∧
    files r = save_to_csv books CSV_FILE fs ∧
    files r !! CSV_FILE
    = Some (default [fieldnames] (fs !! CSV_FILE) ++ (writerow <$> books)) ∧
    (page - 1 ≤ length books)%nat.
Proof.
  intros Hit Hfail Hfuel.
  pose proof (iterates_page_le _ _ _ _ _ _ _ _ Hit) as Hle.
  unfold run_tracker, scrape_books.
  replace fuel with (page - 1 + S (fuel - page))%nat by lia.
  rewrite (iterates_loop _ _ _ _ _ _ _ _ Hit).
  rewrite (scrape_loop_error _ _ _ _ _ _ _ Hfail).
  eexists. split; [done|]. simpl.
  split; [by rewrite <- app_assoc|]. split; [done|]. split.
  - destruct (fs !! CSV_FILE) as [f|] eqn:Hf.
    + by rewrite (save_to_csv_existing _ _ _ f Hf), lookup_insert_eq.
    + by rewrite (save_to_csv_missing _ _ _ Hf), lookup_insert_eq.
  - apply iterates_books in Hit. simpl in Hit. lia.
Qed.
End Scraper.

Lemma pagination_end_returns_batch_witness :
  BookPriceMonitor.scrape_books Sample.two_pages 3 [ScrapingBookData]
  = Some (Return [Sample.attic; Sample.velvet],
          [ScrapingBookData; ScrapedPage 1 1; ScrapedPage 2 1]) ∧
  ∃ msgs, [ScrapingBookData; ScrapedPage 1 1; ScrapedPage 2 1]
          = [ScrapingBookData] ++ msgs ∧ Forall is_scraped_page msgs.
Proof.
  apply (pagination_end_returns_batch (H := Binary64.binary64)
           Sample.two_pages 3 [ScrapingBookData] 3).
  - eapply iterates_next;
      [reflexivity | done | reflexivity | done | reflexivity |].
    eapply iterates_next;
      [reflexivity | done | reflexivity | done | reflexivity |].
    apply iterates_here.
  - eexists. split; [reflexivity|]. by left.
  - lia.
Defined.

Lemma scrape_books_same_capture_date_witness :
  Forall (λ b, date b = "2024-01-03") [Sample.attic; Sample.velvet].
Proof.
  apply (scrape_books_same_capture_date (H := Binary64.binary64)
           Sample.two_pages 3 [] [Sample.attic; Sample.velvet]
           [ScrapedPage 1 1; ScrapedPage 2 1]).
  reflexivity.
Defined.

Lemma fetch_error_keeps_earlier_pages_witness :
  ∃ r, BookPriceMonitor.run_tracker Sample.timeout_on_page_2 2 Sample.one_row = Some r ∧
    stdout r = [ScrapingBookData; ScrapedPage 1 1]
               ++ [ErrorFetchingPage 2 Timeout; SavedBooks 1] ∧
    files r = BookPriceMonitor.save_to_csv [Sample.attic] "books.csv" Sample.one_row ∧
    files r !! "books.csv"
    = Some (default [BookPriceMonitor.fieldnames] (Sample.one_row !! "books.csv")
            ++ (BookPriceMonitor.writerow <$> [Sample.attic])) ∧
    (2 - 1 ≤ 1)%nat.
Proof.
  apply (fetch_error_keeps_earlier_pages (H := Binary64.binary64)
           Sample.timeout_on_page_2 2 Sample.one_row 2 [Sample.attic]
           [ScrapingBookData; ScrapedPage 1 1] Timeout).
  - eapply iterates_next;
      [reflexivity | done | reflexivity | done | reflexivity |].
    apply iterates_here.
  - by left.
  - lia.
Defined.

(** C1 as stated fails: the fetch of page 2 times out after page 1 was
    scraped, and the store, which held one row, holds two after the run. *)
Lemma fetch_error_persists_rows :
  requests_get Sample.timeout_on_page_2 (BookPriceMonitor.BASE_URL 2) = inl Timeout ∧
  data_rows Sample.one_row "books.csv"
  = [["Soumission"; "50.1"; "In stock"; "One"; "2024-01-02"]] ∧
  (files <$> BookPriceMonitor.run_tracker Sample.timeout_on_page_2 2 Sample.one_row)
  = Some (<["books.csv" :=
            [Sample.header;
             ["Soumission"; "50.1"; "In stock"; "One"; "2024-01-02"];
             ["A Light in the Attic"; "51.77"; "In stock"; "Three"; "2024-01-03"]]]>
          Sample.one_row) ∧
  ((λ r, length (data_rows (files r) "books.csv"))
     <$> BookPriceMonitor.run_tracker Sample.timeout_on_page_2 2 Sample.one_row)
  = Some 2%nat.
Proof. repeat split; vm_compute; reflexivity. Qed.

Section Runs.
Context `{PyFloat}.
Import BookPriceMonitor.

Lemma save_runs_existing (batches : list (list book)) filename :
  ∀ (fs : gmap string csv_file) f,
  fs !! filename = Some f →
  foldl (λ fs data, save_to_csv data filename fs) fs batches !! filename
  = Some (f ++ (writerow <$> concat batches)).
Proof.
  induction batches as [|data batches IH]; intros fs f Hf; simpl.
  - by rewrite app_nil_r.
  - rewrite (save_to_csv_existing _ _ _ f Hf).
    rewrite (IH _ (f ++ (writerow <$> data))) by apply lookup_insert_eq.
    by rewrite fmap_app, app_assoc.
Qed.

(** C5: over any sequence of runs that starts without a store file, the file
    holds the header row once, as its first row, followed by the rows of the
    batches in the order of the runs: the first run creates the file with the
    header, and a run that finds the file leaves its content in place and
    adds its rows after it, without a header. *)
Theorem header_written_once
    (first : list book) (batches : list (list book)) filename
    (fs : gmap string csv_file) :
  fs !! filename = None →
  save_to_csv first filename fs !! filename
  = Some (fieldnames :: (writerow <$> first)) ∧
  foldl (λ fs data, save_to_csv data filename fs) fs (first :: batches) !! filename
  = Some (fieldnames :: (writerow <$> concat (first :: batches))) ∧
  (∀ (fs' : gmap string csv_file) f data,
     fs' !! filename = Some f →
     save_to_csv data filename fs' !! filename = Some (f ++ (writerow <$> data))).
Proof.
  intros Hf. split; [|split].
  - by rewrite (save_to_csv_missing _ _ _ Hf), lookup_insert_eq.
  - simpl. rewrite (save_to_csv_missing _ _ _ Hf).
    rewrite (save_runs_existing _ _ _ (fieldnames :: (writerow <$> first)))
      by apply lookup_insert_eq.
    by rewrite fmap_app.
  - intros fs' f data Hf'.
    by rewrite (save_to_csv_existing _ _ _ f Hf'), lookup_insert_eq.
Qed.
End Runs.

Lemma header_written_once_witness :
  (∅ : gmap string csv_file) !! "books.csv" = None ∧
  foldl (λ fs data, BookPriceMonitor.save_to_csv data "books.csv" fs) ∅
    [[Sample.attic]; [Sample.velvet; Sample.attic]] !! "books.csv"
  = Some (BookPriceMonitor.fieldnames ::
          (BookPriceMonitor.writerow <$>
             concat [[Sample.attic]; [Sample.velvet; Sample.attic]])).
Proof.
  split; [reflexivity|].
  apply (header_written_once (H := Binary64.binary64)
           [Sample.attic] [[Sample.velvet; Sample.attic]] "books.csv" ∅).
  reflexivity.
Defined.

(** ** [sorted] sorts and is stable *)

Section SortedFacts.
Context {A K : Type} (lt : K → K → bool) (key : A → K).

(** The keys at hand are those of [dom], on which [lt] is asymmetric and its
    negation transitive. *)
Variable dom : K → Prop.
Hypothesis lt_asym : ∀ a b, dom a → dom b → lt a b = true → lt b a = false.
Hypothesis lt_negtrans : ∀ a b c, dom a → dom b → dom c →
  lt a b = false → lt b c = false → lt a c = false.

Local Abbreviation ascending := (λ a b, lt (key b) (key a) = false).
Local Abbreviation same k := (λ a, negb (lt k (key a)) && negb (lt (key a) k) = true).

Lemma insert_sorted_perm x l : insert_sorted lt key x l ≡ₚ x :: l.
Proof.
  induction l as [|y l IH]; simpl; [done|].
  destruct (lt (key y) (key x)); [|done].
  by rewrite IH, Permutation_swap.
Qed.

Lemma sorted_perm l : sorted lt key l ≡ₚ l.
Proof.
  induction l as [|x l IH]; simpl; [done|].
  by rewrite insert_sorted_perm, IH.
Qed.

Lemma sorted_length l : length (sorted lt key l) = length l.
Proof. by rewrite sorted_perm. Qed.

Lemma sorted_short l : (length l ≤ 1)%nat → sorted lt key l = l.
Proof. destruct l as [|x [|y l]]; simpl; [done | done | lia]. Qed.

Lemma insert_sorted_ascending x l :
  dom (key x) → Forall (λ y, dom (key y)) l →
  StronglySorted ascending l →
  StronglySorted ascending (insert_sorted lt key x l).
Proof.
  intros Hx Hl Hsorted.
  induction l as [|y l IH]; simpl; [by repeat constructor|].
  apply Forall_cons in Hl as [Hy Hl].
  apply StronglySorted_cons in Hsorted as [Hyl Hsorted].
  destruct (lt (key y) (key x)) eqn:Hyx.
  - constructor; [by apply IH|].
    rewrite insert_sorted_perm. constructor; [by apply lt_asym | done].
  - constructor; [by constructor|].
    constructor; [done|].
    rewrite Forall_forall in Hyl, Hl |- *. intros z Hz.
    apply (lt_negtrans _ (key y)); auto.
Qed.

Lemma sorted_ascending l :
  Forall (λ y, dom (key y)) l → StronglySorted ascending (sorted lt key l).
Proof.
  induction 1 as [|x l Hx Hl IH]; simpl; [constructor|].
  apply insert_sorted_ascending; [done | by rewrite sorted_perm | done].
Qed.

Lemma insert_sorted_stable k x l :
  dom k → dom (key x) → Forall (λ y, dom (key y)) l →
  filter (same k) (insert_sorted lt key x l) = filter (same k) (x :: l).
Proof.
  intros Hk Hx Hl. induction l as [|y l IH]; simpl; [done|].
  apply Forall_cons in Hl as [Hy Hl].
  destruct (lt (key y) (key x)) eqn:Hyx; [|done].
  rewrite (filter_cons _ y), IH by done.
  rewrite !(filter_cons _ x), !(filter_cons _ y).
  repeat case_decide; try done.
  (* both [x] and [y] have the key [k], although [y] is smaller *)
  exfalso.
  repeat match goal with
         | Hs : _ && _ = true |- _ => apply andb_true_iff in Hs as [? ?]
         | Hs : negb _ = true |- _ => apply negb_true_iff in Hs
         end.
  assert (lt (key y) (key x) = false) as Hno; [|congruence].
  by apply (lt_negtrans _ k).
Qed.

Lemma sorted_stable k l :
  dom k → Forall (λ y, dom (key y)) l →
  filter (same k) (sorted lt key l) = filter (same k) l.
Proof.
  intros Hk. induction 1 as [|x l Hx Hl IH]; simpl; [done|].
  rewrite insert_sorted_stable by (by rewrite ?sorted_perm).
  by rewrite !(filter_cons _ x), IH.
Qed.
End SortedFacts.

(** ** The cheapest books *)

Section Cheapest.
Context `{PyFloat}.
Import BookPriceMonitor.

Lemma Forall2_mapM_result {A B} (f : A → result B) l k :
  Forall2 (λ x y, f x = Return y) l k → mapM f l = Return k.
Proof.
  induction 1 as [|x y l k Hx _ IH]; simpl; [done|].
  by rewrite Hx, IH.
Qed.

Lemma mapM_result_raises {A B} (f : A → result B) l x :
  x ∈ l → raises (f x) → raises (mapM f l).
Proof.
  intros Hin [e Hx]. induction l as [|y l IH]; [by apply elem_of_nil in Hin|].
  apply elem_of_cons in Hin as [<-|Hin]; simpl.
  - rewrite Hx. by exists e.
  - destruct (f y); simpl; [|by eexists].
    destruct (IH Hin) as [e' ->]. by exists e'.
Qed.

Lemma mapM_result_raise_inv {A B} (f : A → result B) l e :
  mapM f l = Raise e → ∃ x, x ∈ l ∧ f x = Raise e.
Proof.
  induction l as [|x l IH]; simpl; [done|].
  destruct (f x) as [y|e'] eqn:Hx; simpl.
  - destruct (mapM f l) as [k|e'] eqn:Hl; simpl; [done|].
    intros [= ->]. destruct IH as (z & Hz & Hfz); [done|].
    exists z. split; [by right | done].
  - intros [= ->]. exists x. split; [by left | done].
Qed.

Lemma entry_of_cheapest_row row e :
  entry_of row = Some e → cheapest_row row = Return e.
Proof.
  unfold entry_of, price_of, cheapest_row, getitem.
  destruct (row !! "title") as [t|]; [|done]. simpl.
  destruct (row !! "price") as [[s|]|]; try done. simpl.
  destruct (float_of_str s) as [x|]; [|done]. simpl.
  by intros [= <-].
Qed.

Lemma entries_cheapest_rows rows entries :
  mapM entry_of rows = Some entries →
  mapM cheapest_row rows = Return entries.
Proof.
  intros Hentries. apply Forall2_mapM_result.
  apply mapM_Some in Hentries.
  eapply Forall2_impl; [done|]. apply entry_of_cheapest_row.
Qed.

Lemma malformed_cheapest_row row :
  malformed_price row → raises (cheapest_row row).
Proof.
  intros (s & Hprice & _ & Hfloat). unfold cheapest_row, getitem.
  destruct (row !! "title"); simpl; [|by eexists].
  rewrite Hprice. simpl. rewrite Hfloat. by eexists.
Qed.

Lemma filter_prefix {A} (P : A → Prop) `{!∀ x, Decision (P x)} (l k : list A) :
  l `prefix_of` k → filter P l `prefix_of` filter P k.
Proof. intros [m ->]. rewrite filter_app. by eexists. Qed.

(** C3, amended: on a store in which every record has a title and a price
    that [float] reads, and whose prices [<] orders (none is NaN),
    [plot_cheapest_books] returns the first ten of the records sorted by
    price: [out] followed by some [rest] is a rearrangement of all the
    records that ascends by price and keeps the store order among records of
    equal price, and [out] has [min 10 n] elements for [n] records; hence
    [out] itself ascends and keeps the store order among equal prices. *)
Theorem cheapest_books_sorted_stable
    filename (fs : gmap string csv_file) f entries :
  fs !! filename = Some f →
  mapM entry_of (DictReader f) = Some entries →
  orders entries.*2 →
  ∃ out rest,
    plot_cheapest_books filename fs = Return out ∧
    length out = (10 `min` length (DictReader f))%nat ∧
    out ++ rest ≡ₚ entries ∧
    StronglySorted (λ a b, float_lt b.2 a.2 = false) (out ++ rest) ∧
    (∀ x, x ∈ entries.*2 →
       filter (λ e, same_price x e.2 = true) (out ++ rest)
       = filter (λ e, same_price x e.2 = true) entries) ∧
    StronglySorted (λ a b, float_lt b.2 a.2 = false) out ∧
    (∀ x, x ∈ entries.*2 →
       filter (λ e, same_price x e.2 = true) out
       `prefix_of` filter (λ e, same_price x e.2 = true) entries).
Proof.
  intros Hf Hentries [Hasym Hnegtrans].
  set (dom := λ x : float, x ∈ entries.*2).
  assert (Forall (λ e : option string * float, dom e.2) entries) as Hdom.
  { apply Forall_forall. intros e He. by apply list_elem_of_fmap_2. }
  pose proof (sorted_ascending float_lt snd dom Hasym Hnegtrans entries Hdom)
    as Hsorted.
  pose proof (λ x Hx, sorted_stable float_lt snd dom Hnegtrans x entries Hx Hdom)
    as Hstable.
  exists (take 10 (sorted float_lt snd entries)),
         (drop 10 (sorted float_lt snd entries)).
  rewrite take_drop.
  split; [|split; [|split; [|split; [|split; [|split]]]]].
  - unfold plot_cheapest_books. rewrite Hf.
    by rewrite (entries_cheapest_rows _ _ Hentries).
  - rewrite length_take, sorted_length.
    apply mapM_Some, Forall2_length in Hentries. by rewrite Hentries.
  - apply sorted_perm.
  - done.
  - done.
  - eapply StronglySorted_app_1_l. by erewrite take_drop.
  - intros x Hx. unfold same_price. rewrite <- (Hstable x Hx).
    apply filter_prefix, prefix_take.
Qed.
End Cheapest.

Section CheapestExamples.
Context `{PyFloat}.

Lemma orders_check_sound ps : orders_check ps = true → orders ps.
Proof.
  unfold orders_check, orders. rewrite forallb_forall.
  intros Hall. split.
  - intros a b Ha%list_elem_of_In Hb%list_elem_of_In Hab.
    specialize (Hall a Ha). rewrite forallb_forall in Hall.
    specialize (Hall b Hb). apply andb_true_iff in Hall as [Hasym _].
    rewrite Hab in Hasym. by apply negb_true_iff in Hasym.
  - intros a b c Ha%list_elem_of_In Hb%list_elem_of_In Hc%list_elem_of_In Hab Hbc.
    specialize (Hall a Ha). rewrite forallb_forall in Hall.
    specialize (Hall b Hb). apply andb_true_iff in Hall as [_ Hall].
    rewrite forallb_forall in Hall. specialize (Hall c Hc).
    rewrite Hab, Hbc in Hall. by apply negb_true_iff in Hall.
Qed.
End CheapestExamples.

Lemma cheapest_books_sorted_stable_witness :
  ∃ out rest,
    BookPriceMonitor.plot_cheapest_books "books.csv" Sample.twelve = Return out ∧
    length out = (10 `min` 12)%nat ∧
    out ++ rest ≡ₚ Sample.twelve_entries ∧
    StronglySorted (λ a b, float_lt b.2 a.2 = false) (out ++ rest) ∧
    (∀ x, x ∈ Sample.twelve_entries.*2 →
       filter (λ e, same_price x e.2 = true) (out ++ rest)
       = filter (λ e, same_price x e.2 = true) Sample.twelve_entries) ∧
    StronglySorted (λ a b, float_lt b.2 a.2 = false) out ∧
    (∀ x, x ∈ Sample.twelve_entries.*2 →
       filter (λ e, same_price x e.2 = true) out
       `prefix_of` filter (λ e, same_price x e.2 = true) Sample.twelve_entries).
Proof.
  apply (cheapest_books_sorted_stable (H := Binary64.binary64)
           "books.csv" Sample.twelve Sample.twelve_file Sample.twelve_entries).
  - reflexivity.
  - vm_compute. reflexivity.
  - apply orders_check_sound. vm_compute. reflexivity.
Defined.

(** The chart of the twelve records: the two at 12.5 come first, in the order
    of the store, and the two dearest are cut. *)
Example cheapest_of_twelve :
  BookPriceMonitor.plot_cheapest_books "books.csv" Sample.twelve
  = Return [(Some "b", 12.5%float); (Some "d", 12.5%float); (Some "e", 20%float);
            (Some "a", 30%float); (Some "c", 45%float); (Some "g", 50%float);
            (Some "h", 60%float); (Some "i", 70%float); (Some "j", 80%float);
            (Some "k", 90%float)].
Proof. vm_compute. reflexivity. Qed.

(** C3 as stated fails: the store has one record with a valid price, so the
    claim gives an output of one element, and [plot_cheapest_books] raises
    [ValueError] on the other record. *)
Lemma cheapest_books_raise_on_malformed_price :
  omap price_of (DictReader (default [] (Sample.with_malformed_price !! "books.csv")))
  = [10%float] ∧
  BookPriceMonitor.plot_cheapest_books "books.csv" Sample.with_malformed_price
  = Raise ValueError ∧
  ¬ ∃ out, BookPriceMonitor.plot_cheapest_books "books.csv" Sample.with_malformed_price
           = Return out ∧ length out = (10 `min` 1)%nat.
Proof.
  split; [vm_compute; reflexivity|].
  assert (BookPriceMonitor.plot_cheapest_books "books.csv" Sample.with_malformed_price
          = Raise ValueError) as Hraise by (vm_compute; reflexivity).
  split; [done|]. intros (out & Hout & _). congruence.
Qed.

(** ** The average price by date *)

Section Trends.
Context `{PyFloat}.
Import BookPriceMonitor.

Local Abbreviation step :=
  (λ (acc : result (gmap (option string) (list float))) row,
     d ← acc; trends_row d row).
Local Abbreviation nonempty := (λ (_ : option string) (prices : list float), prices ≠ []).

Lemma trends_raise_stays e rows : foldl step (Raise e) rows = Raise e.
Proof. induction rows as [|row rows IH]; simpl; [done | apply IH]. Qed.

Lemma trends_row_blank d row :
  blank_price row = true → trends_row d row = Return d.
Proof.
  unfold blank_price, trends_row, getitem.
  destruct (row !! "price") as [p|]; [|done]. simpl.
  intros Hp%negb_true_iff. by rewrite Hp.
Qed.

Lemma trends_row_malformed d row :
  malformed_price row → raises (trends_row d row).
Proof.
  intros (s & Hprice & Hs & Hfloat). unfold trends_row, getitem.
  rewrite Hprice. simpl. destruct s as [|c s]; [done|].
  destruct (row !! "date"); simpl; [|by eexists].
  rewrite Hfloat. by eexists.
Qed.

Lemma trends_rows_raises rows row acc :
  row ∈ rows → (∀ d, raises (trends_row d row)) → raises (foldl step acc rows).
Proof.
  intros Hin Hrow. revert acc.
  induction rows as [|row' rows IH]; intros acc; [by apply elem_of_nil in Hin|].
  apply elem_of_cons in Hin as [<-|Hin]; simpl; [|by apply IH].
  destruct acc as [d|e]; simpl.
  - destruct (Hrow d) as [e ->]. rewrite trends_raise_stays. by eexists.
  - rewrite trends_raise_stays. by eexists.
Qed.

Lemma trends_row_inv d row d' :
  trends_row d row = Return d' →
  d' = d ∨ ∃ k x, d' = <[k := default [] (d !! k) ++ [x]]> d.
Proof.
  unfold trends_row, getitem.
  destruct (row !! "price") as [p|]; [|done]. simpl.
  destruct (truthy p); [|by intros [= <-]; left].
  destruct (row !! "date") as [k|]; [|done]. simpl.
  destruct (py_float p) as [x|]; [|done]. simpl.
  intros [= <-]. right. by eexists _, _.
Qed.

Lemma trends_row_not_zero_division d row e :
  trends_row d row = Raise e → e ≠ ZeroDivisionError.
Proof.
  unfold trends_row, getitem, py_float.
  destruct (row !! "price") as [p|]; simpl; [|by intros [= <-]].
  destruct (truthy p); [|done].
  destruct (row !! "date") as [k|]; simpl; [|by intros [= <-]].
  destruct p as [s|]; simpl; [|by intros [= <-]].
  destruct (float_of_str s); simpl; [done | by intros [= <-]].
Qed.

Lemma trends_row_nonempty d row d' :
  trends_row d row = Return d' → map_Forall nonempty d → map_Forall nonempty d'.
Proof.
  intros [->|(k & x & ->)]%trends_row_inv Hd; [done|].
  apply map_Forall_insert_2; [|done]. by destruct (default [] (d !! k)).
Qed.

Lemma trends_fold_nonempty rows : ∀ d d',
  foldl step (Return d) rows = Return d' →
  map_Forall nonempty d → map_Forall nonempty d'.
Proof.
  induction rows as [|row rows IH]; intros d d'; simpl; [by intros [= <-]|].
  destruct (trends_row d row) as [d1|e] eqn:Hrow.
  - intros Hrows Hd. eapply IH; [done|]. by eapply trends_row_nonempty.
  - by rewrite trends_raise_stays.
Qed.

Lemma trends_fold_not_zero_division rows : ∀ d e,
  foldl step (Return d) rows = Raise e → e ≠ ZeroDivisionError.
Proof.
  induction rows as [|row rows IH]; intros d e; simpl; [done|].
  destruct (trends_row d row) as [d1|e1] eqn:Hrow; [apply IH|].
  rewrite trends_raise_stays. intros [= <-].
  by eapply trends_row_not_zero_division.
Qed.

Lemma mapM_id_Some (ks : list (option string)) ss :
  mapM id ks = Some ss → ks = Some <$> ss.
Proof.
  intros Hss%mapM_Some.
  induction Hss as [|k s ks ss Hk _ IH]; simpl; [done|].
  simpl in Hk. by rewrite Hk, IH.
Qed.

Lemma sorted_keys_perm ks dates :
  sorted_keys ks = Return dates → dates ≡ₚ ks.
Proof.
  unfold sorted_keys. destruct (length ks <=? 1)%nat; [by intros [= <-]|].
  destruct (mapM id ks) as [ss|] eqn:Hss; [|done].
  intros [= <-]. rewrite (mapM_id_Some _ _ Hss).
  by rewrite sorted_perm.
Qed.

Lemma sorted_keys_type_error ks e :
  sorted_keys ks = Raise e → e = TypeError.
Proof.
  unfold sorted_keys. destruct (length ks <=? 1)%nat; [done|].
  destruct (mapM id ks); [done | by intros [= <-]].
Qed.

Lemma average_nonempty prices :
  prices ≠ [] → average prices = Return (mean prices).
Proof. by destruct prices. Qed.

Lemma averages_not_zero_division d e :
  map_Forall nonempty d → averages d = Raise e → e ≠ ZeroDivisionError.
Proof.
  intros Hd. unfold averages.
  destruct (sorted_keys _) as [dates|e'] eqn:Hdates; simpl.
  - destruct (mapM _ dates) as [avg|e'] eqn:Havg; simpl; [done|].
    intros [= ->].
    apply mapM_result_raise_inv in Havg as (k & _ & Hk).
    destruct (d !! k) as [prices|] eqn:Hprices; [|by injection Hk as <-].
    rewrite average_nonempty in Hk; [done|]. by eapply (Hd k).
  - intros [= ->]. by rewrite (sorted_keys_type_error _ _ Hdates).
Qed.

(** C9: the dict built by the loop of [plot_price_trends] maps every date it
    holds to a non-empty list of prices, and the function never raises
    [ZeroDivisionError], whatever the store. *)
Theorem averages_never_divide_by_zero
    rows d filename (fs : gmap string csv_file) :
  (trends_rows rows = Return d → map_Forall (λ _ prices, prices ≠ []) d) ∧
  plot_price_trends filename fs ≠ Raise ZeroDivisionError.
Proof.
  split.
  - intros Hd. eapply trends_fold_nonempty; [exact Hd|]. apply map_Forall_empty.
  - unfold plot_price_trends. destruct (fs !! filename) as [f|]; [|done].
    destruct (trends_rows (DictReader f)) as [d'|e] eqn:Hrows; simpl.
    + intros Hraise. eapply averages_not_zero_division; [|exact Hraise|done].
      eapply trends_fold_nonempty; [exact Hrows|]. apply map_Forall_empty.
    + intros [= ->]. by eapply trends_fold_not_zero_division.
Qed.

Lemma trends_blank_rows_left_out hdr body : ∀ acc,
  foldl step acc
    (DictReader_row hdr <$>
       List.filter nonblank
         (List.filter (λ r, negb (blank_price (DictReader_row hdr r))) body))
  = foldl step acc (DictReader_row hdr <$> List.filter nonblank body).
Proof.
  induction body as [|r body IH]; intros acc; simpl; [done|].
  destruct (blank_price (DictReader_row hdr r)) eqn:Hblank; simpl.
  - rewrite IH. destruct (nonblank r); simpl; [|done].
    destruct acc as [d|e]; simpl; [|done].
    by rewrite trends_row_blank.
  - destruct (nonblank r); simpl; apply IH.
Qed.

(** C2, amended: a record whose price field is missing or empty is left out
    of the average-by-date derivation and does not make it fail: the
    derivation gives the same result on the store without those records. A
    record whose price is a non-empty string that [float] does not read is
    not left out: it makes both derivations raise. *)
Theorem blank_prices_left_out_malformed_fatal
    filename (fs : gmap string csv_file) hdr body :
  fs !! filename = Some (hdr :: body) →
  plot_price_trends filename
    (<[filename :=
         hdr :: List.filter (λ r, negb (blank_price (DictReader_row hdr r))) body]> fs)
  = plot_price_trends filename fs ∧
  (∀ row, row ∈ DictReader (hdr :: body) → malformed_price row →
     raises (plot_cheapest_books filename fs) ∧
     raises (plot_price_trends filename fs)).
Proof.
  intros Hf. split.
  - unfold plot_price_trends. rewrite lookup_insert_eq, Hf.
    unfold trends_rows, DictReader. by rewrite trends_blank_rows_left_out.
  - intros row Hrow Hmalformed.
    unfold plot_cheapest_books, plot_price_trends. rewrite Hf. split.
    + destruct (mapM_result_raises cheapest_row _ _ Hrow
                  (malformed_cheapest_row _ Hmalformed)) as [e ->].
      by eexists.
    + destruct (trends_rows_raises _ _ (Return ∅) Hrow
                  (λ d, trends_row_malformed d _ Hmalformed)) as [e He].
      unfold trends_rows. rewrite He. by eexists.
Qed.
End Trends.

Lemma blank_prices_left_out_malformed_fatal_witness :
  BookPriceMonitor.plot_price_trends "books.csv"
    (<["books.csv" :=
         Sample.header ::
         [["Sharp Objects"; "10"; "In stock"; "Four"; "2024-01-01"];
          ["The Requiem Red"; "20"; "In stock"; "One"; "2024-01-01"]]]>
       Sample.with_blank_price)
  = BookPriceMonitor.plot_price_trends "books.csv" Sample.with_blank_price ∧
  raises (BookPriceMonitor.plot_cheapest_books "books.csv" Sample.with_malformed_price) ∧
  raises (BookPriceMonitor.plot_price_trends "books.csv" Sample.with_malformed_price).
Proof.
  split.
  - apply (proj1 (blank_prices_left_out_malformed_fatal (H := Binary64.binary64)
                    "books.csv" Sample.with_blank_price Sample.header
                    [["Sharp Objects"; "10"; "In stock"; "Four"; "2024-01-01"];
                     ["Sapiens"; EmptyString; "In stock"; "Five"; "2024-01-02"];
                     ["The Requiem Red"; "20"; "In stock"; "One"; "2024-01-01"]]
                    eq_refl)).
  - apply (proj2 (blank_prices_left_out_malformed_fatal (H := Binary64.binary64)
                    "books.csv" Sample.with_malformed_price Sample.header
                    [["Sharp Objects"; "10"; "In stock"; "Four"; "2024-01-01"];
                     ["Sapiens"; "abc"; "In stock"; "Five"; "2024-01-01"]]
                    eq_refl)
             (DictReader_row Sample.header
                ["Sapiens"; "abc"; "In stock"; "Five"; "2024-01-01"])).
    + apply elem_of_cons. right. apply elem_of_cons. by left.
    + exists "abc". split; [vm_compute; reflexivity|]. split; [done | reflexivity].
Defined.

(** C2 as stated fails: the record with the price [abc] is not left out. Both
    derivations raise [ValueError] on the store, where leaving the record out
    would give the chart of the other record. *)
Lemma malformed_price_is_fatal :
  BookPriceMonitor.plot_cheapest_books "books.csv" Sample.with_malformed_price
  = Raise ValueError ∧
  BookPriceMonitor.plot_price_trends "books.csv" Sample.with_malformed_price
  = Raise ValueError ∧
  BookPriceMonitor.plot_cheapest_books "books.csv"
    {[ "books.csv" :=
         [Sample.header; ["Sharp Objects"; "10"; "In stock"; "Four"; "2024-01-01"]] ]}
  = Return [(Some "Sharp Objects", 10%float)] ∧
  BookPriceMonitor.plot_price_trends "books.csv"
    {[ "books.csv" :=
         [Sample.header; ["Sharp Objects"; "10"; "In stock"; "Four"; "2024-01-01"]] ]}
  = Return ([Some "2024-01-01"], [10%float]).
Proof. repeat split; vm_compute; reflexivity. Qed.

(** The first derivation has no test of the price field: an empty price makes
    it raise, where the second derivation skips the record. *)
Example empty_price_in_both_reports :
  BookPriceMonitor.plot_cheapest_books "books.csv" Sample.with_blank_price
  = Raise ValueError ∧
  BookPriceMonitor.plot_price_trends "books.csv" Sample.with_blank_price
  = Return ([Some "2024-01-01"], [15%float]).
Proof. split; vm_compute; reflexivity. Qed.

Lemma averages_never_divide_by_zero_witness :
  map_Forall (λ _ prices, prices ≠ [])
    ({[ Some "2024-01-01" := [10%float; 20%float];
        Some "2024-01-02" := [15%float] ]} : gmap (option string) (list float)) ∧
  BookPriceMonitor.plot_price_trends "books.csv" Sample.scenario_B
  ≠ Raise ZeroDivisionError.
Proof.
  destruct (averages_never_divide_by_zero (H := Binary64.binary64)
              (DictReader (default [] (Sample.scenario_B !! "books.csv")))
              {[ Some "2024-01-01" := [10%float; 20%float];
                 Some "2024-01-02" := [15%float] ]}
              "books.csv" Sample.scenario_B) as [Hdict Hraise].
  split; [|exact Hraise].
  apply Hdict. vm_compute. reflexivity.
Defined.

(** ** The order of the dates *)

Lemma string_ltb_asym a b : String.ltb a b = true → String.ltb b a = false.
Proof.
  unfold String.ltb. rewrite (String.compare_antisym b a).
  by destruct (String.compare a b).
Qed.

Lemma string_ltb_negtrans a b c :
  String.ltb a b = false → String.ltb b c = false → String.ltb a c = false.
Proof.
  unfold String.ltb.
  destruct (String.compare a c) eqn:Hac; try done.
  destruct (String.compare a b) eqn:Hab; try done.
  - apply String.compare_eq_iff in Hab as ->. by rewrite Hac.
  - intros _.
    assert (String.compare b a = Lt) as Hba
      by (by rewrite String.compare_antisym, Hab).
    apply OrderedTypeEx.String_as_OT.cmp_lt in Hba, Hac.
    pose proof (OrderedTypeEx.String_as_OT.lt_trans _ _ _ Hba Hac) as Hbc.
    apply OrderedTypeEx.String_as_OT.cmp_lt in Hbc.
    unfold OrderedTypeEx.String_as_OT.cmp in Hbc. by rewrite Hbc.
Qed.

Lemma string_ltb_total a b : a ≠ b → String.ltb b a = false → String.ltb a b = true.
Proof.
  unfold String.ltb. intros Hne. rewrite (String.compare_antisym b a).
  destruct (String.compare a b) eqn:Hab; try done.
  by apply String.compare_eq_iff in Hab.
Qed.

Lemma sorted_dates_ascend (ss : list string) :
  NoDup ss →
  StronglySorted (λ a b, String.ltb a b = true) (sorted String.ltb id ss).
Proof.
  intros Hnodup.
  assert (NoDup (sorted String.ltb id ss)) as Hnd by (by rewrite sorted_perm).
  pose proof (sorted_ascending String.ltb id (λ _, True)
                (λ a b _ _, string_ltb_asym a b)
                (λ a b c _ _ _, string_ltb_negtrans a b c) ss) as Hsorted.
  specialize (Hsorted ltac:(by apply Forall_forall)).
  induction Hsorted as [|s l Hl IH Hs]; [constructor|].
  apply NoDup_cons in Hnd as [Hin Hnd].
  constructor; [by apply IH|].
  rewrite Forall_forall in Hs |- *. intros t Ht.
  apply string_ltb_total; [|by apply Hs]. by intros ->.
Qed.

(** ** One average per date *)

Section AverageByDate.
Context `{PyFloat}.
Import BookPriceMonitor.

Local Abbreviation step :=
  (λ (acc : result (gmap (option string) (list float))) row,
     d ← acc; trends_row d row).

Lemma prices_on_cons k row rows :
  prices_on k (row :: rows) = prices_on k [row] ++ prices_on k rows.
Proof.
  unfold prices_on. simpl.
  by destruct (if priced row && bool_decide (row !! "date" = Some k)
               then price_of row else None).
Qed.

Lemma trends_row_ready d row :
  trend_ready row →
  ∃ d', trends_row d row = Return d' ∧
    ∀ k, d' !! k = match prices_on k [row] with
                   | [] => d !! k
                   | ps => Some (default [] (d !! k) ++ ps)
                   end.
Proof.
  intros [[p Hp] Hready].
  unfold trends_row, getitem, prices_on, priced in *. rewrite Hp in *. simpl.
  destruct (truthy p) eqn:Htruthy; simpl.
  - destruct (Hready eq_refl) as [[s Hdate] [x Hprice]].
    unfold date_of in Hdate.
    destruct (row !! "date") as [[s'|]|] eqn:Hd; try done.
    injection Hdate as ->.
    unfold price_of in *. rewrite Hp in *.
    destruct p as [[|c str]|]; try done.
    unfold py_float. rewrite Hprice. simpl.
    eexists. split; [done|]. intros k.
    case_bool_decide as Hk; simpl.
    + injection Hk as <-. by rewrite lookup_insert_eq.
    + rewrite lookup_insert_ne; [done | congruence].
  - exists d. split; [done|]. intros k. by rewrite Hp, Htruthy.
Qed.

Lemma trends_fold_ready rows : ∀ d,
  Forall trend_ready rows →
  ∃ d', foldl step (Return d) rows = Return d' ∧
    ∀ k, d' !! k = match prices_on k rows with
                   | [] => d !! k
                   | ps => Some (default [] (d !! k) ++ ps)
                   end.
Proof.
  induction rows as [|row rows IH]; intros d Hrows.
  - by exists d.
  - apply Forall_cons in Hrows as [Hrow Hrows].
    destruct (trends_row_ready d row Hrow) as (d1 & Hd1 & Hlookup1).
    destruct (IH d1 Hrows) as (d' & Hd' & Hlookup).
    exists d'. split; [simpl; by rewrite Hd1|].
    intros k. rewrite (prices_on_cons k row rows), Hlookup, Hlookup1.
    destruct (prices_on k [row]) as [|q qs]; [done|].
    destruct (prices_on k rows) as [|p ps]; simpl.
    + by rewrite app_nil_r.
    + by rewrite <- app_assoc.
Qed.

Lemma prices_on_no_date rows :
  Forall trend_ready rows → prices_on None rows = [].
Proof.
  induction 1 as [|row rows [_ Hrow] _ IH]; [done|].
  rewrite prices_on_cons, IH, app_nil_r. unfold prices_on. simpl.
  destruct (priced row); [|done].
  destruct (Hrow eq_refl) as [[s Hdate] _]. unfold date_of in Hdate.
  rewrite bool_decide_eq_false_2; [done|].
  intros Hnone. by rewrite Hnone in Hdate.
Qed.

Lemma prices_on_recorded rows s :
  Forall trend_ready rows →
  prices_on (Some s) rows ≠ [] ↔
  ∃ row, row ∈ rows ∧ priced row = true ∧ date_of row = Some s.
Proof.
  intros Hrows. split.
  - intros Hne.
    destruct (prices_on (Some s) rows) as [|x xs] eqn:Hps; [done|].
    assert (x ∈ prices_on (Some s) rows) as Hx by (rewrite Hps; by left).
    apply list_elem_of_omap in Hx as (row & Hrow & Hx).
    exists row. split; [done|].
    destruct (priced row); [|done]. split; [done|].
    case_bool_decide as Hdate; [|done].
    unfold date_of. by rewrite Hdate.
  - intros (row & Hin & Hpriced & Hdate) Hnil.
    rewrite Forall_forall in Hrows.
    destruct (Hrows row Hin) as [_ Hready].
    destruct (Hready Hpriced) as [_ [x Hx]].
    assert (x ∈ prices_on (Some s) rows) as Helem; [|by rewrite Hnil in Helem; apply elem_of_nil in Helem].
    apply list_elem_of_omap. exists row. split; [done|].
    rewrite Hpriced. simpl. rewrite bool_decide_eq_true_2; [done|].
    unfold date_of in Hdate. by destruct (row !! "date") as [[s'|]|]; simplify_eq.
Qed.

Lemma keys_are_strings (ks : list (option string)) :
  None ∉ ks → ks = Some <$> omap id ks.
Proof.
  induction ks as [|[s|] ks IH]; intros Hnone; simpl.
  - done.
  - f_equal. apply IH. intros Hin. apply Hnone. by right.
  - exfalso. apply Hnone. by left.
Qed.

Lemma sorted_keys_strings (ss : list string) :
  sorted_keys (Some <$> ss) = Return (Some <$> sorted String.ltb id ss).
Proof.
  unfold sorted_keys. rewrite length_fmap.
  destruct (length ss <=? 1)%nat eqn:Hlen.
  - apply Nat.leb_le in Hlen. by rewrite sorted_short.
  - by rewrite mapM_fmap_Some.
Qed.

Lemma mapM_result_fmap {A B} (f : A → result B) (g : A → B) l :
  (∀ x, x ∈ l → f x = Return (g x)) → mapM f l = Return (g <$> l).
Proof.
  intros Hfg. apply Forall2_mapM_result, Forall2_fmap_r, Forall_Forall2_diag.
  by apply Forall_forall.
Qed.

Lemma average_by_date filename (fs : gmap string csv_file) f :
  fs !! filename = Some f →
  Forall trend_ready (DictReader f) →
  ∃ ds,
    plot_price_trends filename fs
    = Return (Some <$> ds,
              (λ d, mean (prices_on (Some d) (DictReader f))) <$> ds) ∧
    StronglySorted (λ a b, String.ltb a b = true) ds ∧
    NoDup ds ∧
    (∀ d, d ∈ ds ↔
       ∃ row, row ∈ DictReader f ∧ priced row = true ∧ date_of row = Some d) ∧
    (∀ d, d ∈ ds → prices_on (Some d) (DictReader f) ≠ []).
Proof.
  intros Hf Hrows.
  destruct (trends_fold_ready (DictReader f) ∅ Hrows) as (d' & Hd' & Hlookup).
  set (keys := (map_to_list d').*1).
  assert (∀ k, k ∈ keys ↔ prices_on k (DictReader f) ≠ []) as Hkeys.
  { intros k. unfold keys. rewrite list_elem_of_fmap. split.
    - intros ([k' ps] & -> & Hin%elem_of_map_to_list). simpl in *.
      rewrite Hlookup in Hin. by destruct (prices_on k' (DictReader f)).
    - intros Hne. destruct (prices_on k (DictReader f)) as [|p ps] eqn:Hps; [done|].
      exists (k, p :: ps). split; [done|].
      apply elem_of_map_to_list. by rewrite Hlookup, Hps. }
  assert (None ∉ keys) as Hnone.
  { rewrite Hkeys, prices_on_no_date by done. by intros Hne. }
  set (ss := omap id keys).
  assert (keys = Some <$> ss) as Hss by (by apply keys_are_strings).
  assert (NoDup ss) as Hnodup.
  { apply (NoDup_fmap_1 Some). rewrite <- Hss. apply NoDup_fst_map_to_list. }
  set (ds := sorted String.ltb id ss).
  assert (∀ s, s ∈ ds ↔ prices_on (Some s) (DictReader f) ≠ []) as Hds.
  { intros s. unfold ds. rewrite sorted_perm, <- Hkeys, Hss.
    rewrite list_elem_of_fmap. split; [by eexists | by intros (? & [= <-] & ?)]. }
  exists ds. split; [|split; [|split; [|split]]].
  - unfold plot_price_trends. rewrite Hf.
    unfold trends_rows. rewrite Hd'. simpl.
    unfold averages. fold keys. rewrite Hss, sorted_keys_strings. fold ds. simpl.
    rewrite (mapM_result_fmap _
               (λ k, mean (prices_on k (DictReader f))) (Some <$> ds)).
    + simpl. by rewrite <- list_fmap_compose.
    + intros k (s & -> & Hs)%list_elem_of_fmap.
      apply Hds in Hs. rewrite Hlookup, lookup_empty.
      destruct (prices_on (Some s) (DictReader f)) as [|p ps]; done.
  - by apply sorted_dates_ascend.
  - unfold ds. by rewrite sorted_perm.
  - intros d. rewrite Hds. by apply prices_on_recorded.
  - intros d. by rewrite Hds.
Qed.
End AverageByDate.

(** C4, amended: on a store whose non-empty prices [float] reads, each next
    to a date, [plot_price_trends] returns one entry for each distinct date
    that has a record with a non-empty price, and no other: the dates ascend
    strictly, and the entry of a date is [sum(prices) / len(prices)] over the
    prices of its records with a non-empty price, in the order of the store.
    On the store of scenario B the entries are 15.0 for 2024-01-01 and 15.0
    for 2024-01-02, in that order. *)
Theorem average_by_date_one_entry_per_date :
  (∀ (H : PyFloat) filename (fs : gmap string csv_file) f,
     fs !! filename = Some f →
     Forall trend_ready (DictReader f) →
     ∃ ds,
       BookPriceMonitor.plot_price_trends filename fs
       = Return (Some <$> ds,
                 (λ d, mean (prices_on (Some d) (DictReader f))) <$> ds) ∧
       StronglySorted (λ a b, String.ltb a b = true) ds ∧
       NoDup ds ∧
       (∀ d, d ∈ ds ↔
          ∃ row, row ∈ DictReader f ∧ priced row = true ∧ date_of row = Some d) ∧
       (∀ d, d ∈ ds → prices_on (Some d) (DictReader f) ≠ [])) ∧
  BookPriceMonitor.plot_price_trends "books.csv" Sample.scenario_B
  = Return ([Some "2024-01-01"; Some "2024-01-02"], [15%float; 15%float]).
Proof.
  split.
  - intros H filename fs f Hf Hrows. by apply average_by_date.
  - vm_compute. reflexivity.
Qed.

Lemma average_by_date_one_entry_per_date_witness :
  ∃ ds,
    BookPriceMonitor.plot_price_trends "books.csv" Sample.scenario_B
    = Return (Some <$> ds,
              (λ d, mean (prices_on (Some d)
                            (DictReader (default [] (Sample.scenario_B !! "books.csv")))))
                <$> ds) ∧
    StronglySorted (λ a b, String.ltb a b = true) ds ∧
    NoDup ds ∧
    (∀ d, d ∈ ds ↔
       ∃ row, row ∈ DictReader (default [] (Sample.scenario_B !! "books.csv")) ∧
              priced row = true ∧ date_of row = Some d) ∧
    (∀ d, d ∈ ds →
       prices_on (Some d)
         (DictReader (default [] (Sample.scenario_B !! "books.csv"))) ≠ []).
Proof.
  apply (proj1 average_by_date_one_entry_per_date Binary64.binary64
           "books.csv" Sample.scenario_B).
  - reflexivity.
  - unfold DictReader. simpl.
    repeat constructor; try (eexists; vm_compute; reflexivity).
    all: intros _; split; eexists; vm_compute; reflexivity.
Defined.

(** C4 as stated fails. On a store where 2024-01-01 has the prices [10] and
    [abc], the claim gives the entry of that date, the mean 10.0 of its valid
    prices, and [plot_price_trends] raises [ValueError]. On a store where
    2024-01-02 has one record, with an empty price, that date is in the store
    and has no entry. *)
Lemma average_by_date_malformed_and_blank :
  BookPriceMonitor.plot_price_trends "books.csv" Sample.with_malformed_price
  = Raise ValueError ∧
  (¬ ∃ out, BookPriceMonitor.plot_price_trends "books.csv" Sample.with_malformed_price
            = Return out) ∧
  omap date_of (DictReader (default [] (Sample.with_blank_price !! "books.csv")))
  = ["2024-01-01"; "2024-01-02"; "2024-01-01"] ∧
  BookPriceMonitor.plot_price_trends "books.csv" Sample.with_blank_price
  = Return ([Some "2024-01-01"], [15%float]).
Proof.
  assert (BookPriceMonitor.plot_price_trends "books.csv" Sample.with_malformed_price
          = Raise ValueError) as Hraise by (vm_compute; reflexivity).
  split; [done|]. split; [intros [out Hout]; congruence|].
  split; vm_compute; reflexivity.
Qed.

(** * The two copies of the script *)

(** C6: each function of [book_price_monitor.py] returns the same result and
    leaves the same store as the function of the same name of
    [bookshop_price_monitor.py], on every input; the two constants agree as
    well. *)
Theorem script_copies_equivalent `{PyFloat} :
  (∀ page, BookPriceMonitor.BASE_URL page = BookshopPriceMonitor.BASE_URL page) ∧
  BookPriceMonitor.CSV_FILE = BookshopPriceMonitor.CSV_FILE ∧
  (∀ w fuel out,
     BookPriceMonitor.scrape_books w fuel out
     = BookshopPriceMonitor.scrape_books w fuel out) ∧
  (∀ data filename fs,
     BookPriceMonitor.save_to_csv data filename fs
     = BookshopPriceMonitor.save_to_csv data filename fs) ∧
  (∀ filename fs,
     BookPriceMonitor.plot_cheapest_books filename fs
     = BookshopPriceMonitor.plot_cheapest_books filename fs) ∧
  (∀ filename fs,
     BookPriceMonitor.plot_price_trends filename fs
     = BookshopPriceMonitor.plot_price_trends filename fs) ∧
  (∀ w fuel fs,
     BookPriceMonitor.run_tracker w fuel fs
     = BookshopPriceMonitor.run_tracker w fuel fs).
Proof. repeat apply conj; intros; reflexivity. Qed.

(** * Further properties of [book_price_monitor.py] *)

(** ** Whole runs *)

Section FurtherRuns.
Context `{PyFloat}.
Import BookPriceMonitor.

Lemma scrape_books_reaches w fuel out page books out' :
  iterates w (today_isoformat w) 1 [] out page books out' →
  (page ≤ fuel)%nat →
  scrape_books w fuel out
  = scrape_loop w (today_isoformat w) (S (fuel - page)) page books out'.
Proof.
  intros Hit Hfuel.
  pose proof (iterates_page_le _ _ _ _ _ _ _ _ Hit) as Hle.
  unfold scrape_books.
  replace fuel with (page - 1 + S (fuel - page))%nat at 1 by lia.
  apply (iterates_loop _ _ _ _ _ _ _ _ Hit).
Qed.

Lemma save_to_csv_lookup (data : list book) filename (fs : gmap string csv_file) :
  save_to_csv data filename fs !! filename
  = Some (default [fieldnames] (fs !! filename) ++ (writerow <$> data)).
Proof.
  destruct (fs !! filename) as [f|] eqn:Hf.
  - by rewrite (save_to_csv_existing _ _ _ f Hf), lookup_insert_eq.
  - by rewrite (save_to_csv_missing _ _ _ Hf), lookup_insert_eq.
Qed.

(** X1: a run whose pagination ends normally saves the whole batch: the store
    file gains exactly one row per record scraped, in the order scraped,
    [Saved n books] reports their number, and the charts are drawn from the
    store as it is after the save. *)
Theorem normal_run_saves_whole_batch w fuel fs page books out :
  iterates w (today_isoformat w) 1 [] [ScrapingBookData] page books out →
  ends_pagination w page →
  (page ≤ fuel)%nat →
  ∃ r, run_tracker w fuel fs = Some r ∧
    stdout r = out ++ [SavedBooks (length books)] ∧
    files r !! CSV_FILE
    = Some (default [fieldnames] (fs !! CSV_FILE) ++ (writerow <$> books)) ∧
    charts r = (c ← plot_cheapest_books CSV_FILE (files r);
                t ← plot_price_trends CSV_FILE (files r);
                Return (c, t)).
Proof.
  intros Hit Hend Hfuel. unfold run_tracker.
  rewrite (scrape_books_reaches _ _ _ _ _ _ Hit Hfuel).
  rewrite (scrape_loop_end _ _ _ _ _ _ Hend).
  eexists. split; [done|]. simpl.
  split; [done|]. split; [apply save_to_csv_lookup | done].
Qed.

Lemma scrape_loop_raise w today fuel page books out res e :
  requests_get w (BASE_URL page) = inr res →
  status_code res ≠ 404 →
  raise_for_status res = Return tt →
  mapM (scrape_item today) (product_pods res) = Raise e →
  scrape_loop w today (S fuel) page books out = Some (Raise e, out).
Proof.
  intros Hget H404 Hstatus Hitems. simpl.
  rewrite Hget, (proj2 (Z.eqb_neq _ _) H404), Hstatus.
  destruct (product_pods res) as [|item items]; [done|].
  by rewrite Hitems.
Qed.

(** X2: one item that cannot be extracted aborts the run. When the pages
    before [page] were scraped and an item of [page] raises in the body of
    the [for] loop, the exception leaves [run_tracker]: nothing is saved, not
    even the records of the earlier pages, the store is as it was, and no
    chart is drawn. *)
Theorem extraction_error_aborts_run w fuel fs page books out res item :
  iterates w (today_isoformat w) 1 [] [ScrapingBookData] page books out →
  requests_get w (BASE_URL page) = inr res →
  status_code res ≠ 404 →
  raise_for_status res = Return tt →
  item ∈ product_pods res →
  raises (scrape_item (today_isoformat w) item) →
  (page ≤ fuel)%nat →
  ∃ e, run_tracker w fuel fs
       = Some {| files := fs; stdout := out; charts := Raise e |}.
Proof.
  intros Hit Hget H404 Hstatus Hitem Hraise Hfuel.
  destruct (mapM_result_raises _ _ _ Hitem Hraise) as [e He].
  exists e. unfold run_tracker.
  rewrite (scrape_books_reaches _ _ _ _ _ _ Hit Hfuel).
  by rewrite (scrape_loop_raise _ _ _ _ _ _ _ _ Hget H404 Hstatus He).
Qed.

(** X3: on a catalogue whose first page ends the pagination, and without a
    store file, the run still creates the store: the file holds the header
    row alone, [Saved 0 books] is printed, and both charts are empty. *)
Theorem empty_catalogue_creates_header_only_store w fuel fs :
  ends_pagination w 1 →
  fs !! CSV_FILE = None →
  run_tracker w (S fuel) fs
  = Some {| files := <[CSV_FILE := [fieldnames]]> fs;
            stdout := [ScrapingBookData; SavedBooks 0];
            charts := Return ([], ([], [])) |}.
Proof.
  intros Hend Hfs. unfold run_tracker, scrape_books.
  rewrite (scrape_loop_end _ _ _ _ _ _ Hend).
  rewrite (save_to_csv_missing _ _ _ Hfs). simpl.
  unfold plot_cheapest_books, plot_price_trends.
  by rewrite lookup_insert_eq.
Qed.

(** X4: nothing is deduplicated. A second run on an unchanged catalogue adds
    the rows of the same batch once more after those of the first run. *)
Theorem rerun_duplicates_rows w fuel fs books out :
  scrape_books w fuel [ScrapingBookData] = Some (Return books, out) →
  ∃ r1 r2,
    run_tracker w fuel fs = Some r1 ∧
    run_tracker w fuel (files r1) = Some r2 ∧
    files r2 !! CSV_FILE
    = Some (default [fieldnames] (fs !! CSV_FILE)
            ++ (writerow <$> books) ++ (writerow <$> books)).
Proof.
  intros Hscrape. unfold run_tracker. rewrite Hscrape.
  eexists _, _. split; [done|]. split; [done|]. simpl.
  rewrite !save_to_csv_lookup. simpl. by rewrite <- app_assoc.
Qed.
End FurtherRuns.

Lemma normal_run_saves_whole_batch_witness :
  ∃ r, BookPriceMonitor.run_tracker Sample.two_pages 3 Sample.one_row = Some r ∧
    stdout r = [ScrapingBookData; ScrapedPage 1 1; ScrapedPage 2 1] ++ [SavedBooks 2] ∧
    files r !! "books.csv"
    = Some (default [BookPriceMonitor.fieldnames] (Sample.one_row !! "books.csv")
            ++ (BookPriceMonitor.writerow <$> [Sample.attic; Sample.velvet])) ∧
    charts r = (c ← BookPriceMonitor.plot_cheapest_books "books.csv" (files r);
                t ← BookPriceMonitor.plot_price_trends "books.csv" (files r);
                Return (c, t)).
Proof.
  apply (normal_run_saves_whole_batch (H := Binary64.binary64)
           Sample.two_pages 3 Sample.one_row 3 [Sample.attic; Sample.velvet]
           [ScrapingBookData; ScrapedPage 1 1; ScrapedPage 2 1]).
  - eapply iterates_next;
      [reflexivity | done | reflexivity | done | reflexivity |].
    eapply iterates_next;
      [reflexivity | done | reflexivity | done | reflexivity |].
    apply iterates_here.
  - eexists. split; [reflexivity|]. by left.
  - lia.
Defined.

Lemma extraction_error_aborts_run_witness :
  ∃ e, BookPriceMonitor.run_tracker MoreSamples.bad_item_on_page_2 5 Sample.one_row
       = Some {| files := Sample.one_row;
                 stdout := [ScrapingBookData; ScrapedPage 1 1];
                 charts := Raise e |}.
Proof.
  apply (extraction_error_aborts_run (H := Binary64.binary64)
           MoreSamples.bad_item_on_page_2 5 Sample.one_row 2 [Sample.attic]
           [ScrapingBookData; ScrapedPage 1 1]
           {| status_code := 200;
              product_pods := [Sample.pod "Tipping the Velvet" "£53.74";
                               MoreSamples.pod_without_rating] |}
           MoreSamples.pod_without_rating).
  - eapply iterates_next;
      [reflexivity | done | reflexivity | done | reflexivity |].
    apply iterates_here.
  - reflexivity.
  - done.
  - reflexivity.
  - apply elem_of_cons. right. apply elem_of_cons. by left.
  - exists IndexError. reflexivity.
  - lia.
Defined.

Lemma empty_catalogue_creates_header_only_store_witness :
  BookPriceMonitor.run_tracker MoreSamples.empty_catalogue 1 ∅
  = Some {| files := <["books.csv" := [BookPriceMonitor.fieldnames]]> ∅;
            stdout := [ScrapingBookData; SavedBooks 0];
            charts := Return ([], ([], [])) |}.
Proof.
  apply (empty_catalogue_creates_header_only_store (H := Binary64.binary64)
           MoreSamples.empty_catalogue 0 ∅).
  - eexists. split; [reflexivity|]. by left.
  - reflexivity.
Defined.

Lemma rerun_duplicates_rows_witness :
  ∃ r1 r2,
    BookPriceMonitor.run_tracker Sample.two_pages 3 ∅ = Some r1 ∧
    BookPriceMonitor.run_tracker Sample.two_pages 3 (files r1) = Some r2 ∧
    files r2 !! "books.csv"
    = Some (default [BookPriceMonitor.fieldnames]
              ((∅ : gmap string csv_file) !! "books.csv")
            ++ (BookPriceMonitor.writerow <$> [Sample.attic; Sample.velvet])
            ++ (BookPriceMonitor.writerow <$> [Sample.attic; Sample.velvet])).
Proof.
  apply (rerun_duplicates_rows (H := Binary64.binary64)
           Sample.two_pages 3 ∅ [Sample.attic; Sample.velvet]
           [ScrapingBookData; ScrapedPage 1 1; ScrapedPage 2 1]).
  reflexivity.
Defined.

(** ** When the loop stops *)

Section FurtherPagination.
Context `{PyFloat}.
Import BookPriceMonitor.

Lemma scrape_loop_continues w fuel page books out :
  continues w page →
  ∃ new n,
    scrape_loop w (today_isoformat w) (S fuel) page books out
    = scrape_loop w (today_isoformat w) fuel (page + 1) (books ++ new)
        (out ++ [ScrapedPage page n]).
Proof.
  intros (res & new & Hget & H404 & Hstatus & Hitems & Hnew).
  exists new, (length (product_pods res)). simpl.
  rewrite Hget, (proj2 (Z.eqb_neq _ _) H404), Hstatus.
  destruct (product_pods res) as [|item items]; [done|].
  by rewrite Hnew.
Qed.

Lemma scrape_loop_stops w fuel page books out :
  ¬ continues w page →
  is_Some (scrape_loop w (today_isoformat w) (S fuel) page books out).
Proof.
  intros Hstop. simpl.
  destruct (requests_get w (BASE_URL page)) as [e|res] eqn:Hget; [by eexists|].
  destruct (status_code res =? 404) eqn:H404; [by eexists|].
  apply Z.eqb_neq in H404.
  destruct (raise_for_status res) as [[]|[]] eqn:Hstatus; try by eexists.
  destruct (product_pods res) as [|item items] eqn:Hitems; [by eexists|].
  destruct (mapM _ (item :: items)) as [new|e] eqn:Hnew; [|by eexists].
  exfalso. apply Hstop. exists res, new. by rewrite Hitems.
Qed.

Lemma continues_or_not w page : continues w page ∨ ¬ continues w page.
Proof.
  unfold continues.
  destruct (requests_get w (BASE_URL page)) as [e|res] eqn:Hget;
    [right; by intros (? & ? & ? & _)|].
  destruct (decide (status_code res = 404)) as [H404|H404];
    [right; intros (? & ? & [= <-] & ? & _); done|].
  destruct (raise_for_status res) as [[]|e] eqn:Hstatus;
    [|right; intros (? & ? & [= <-] & _ & Hs & _); congruence].
  destruct (product_pods res) as [|item items] eqn:Hitems;
    [right; intros (? & ? & [= <-] & _ & _ & Hi & _); congruence|].
  destruct (mapM (scrape_item (today_isoformat w)) (item :: items))
    as [new|e] eqn:Hnew.
  - left. exists res, new. by rewrite Hitems.
  - right. intros (? & ? & [= <-] & _ & _ & _ & Hn). rewrite Hitems in Hn. congruence.
Qed.

(** X5: the loop stops at the first page that does not let it go on: when
    some page [q] is not found, fails to load, has no item or has an item
    that cannot be extracted, [scrape_books] returns or raises within [q]
    iterations. *)
Theorem scrape_books_stops w out q fuel :
  (1 ≤ q)%nat →
  ¬ continues w q →
  (q ≤ fuel)%nat →
  is_Some (scrape_books w fuel out).
Proof.
  intros Hq Hstop Hfuel. unfold scrape_books.
  assert (∀ n page books out',
            (page + n = q)%nat → (n < fuel - (page - 1))%nat → (1 ≤ page)%nat →
            is_Some (scrape_loop w (today_isoformat w) (fuel - (page - 1))
                       page books out')) as Hloop.
  { induction n as [|n IH]; intros page books out' Hpage Hn Hpos.
    - replace page with q in * by lia.
      destruct (fuel - (q - 1))%nat as [|k] eqn:Hk; [lia|].
      by apply scrape_loop_stops.
    - destruct (fuel - (page - 1))%nat as [|k] eqn:Hk; [lia|].
      destruct (continues_or_not w page) as [Hgo|Hno];
        [|by apply scrape_loop_stops].
      destruct (scrape_loop_continues w k page books out' Hgo)
        as (new & m & ->).
      replace k with (fuel - (page + 1 - 1))%nat by lia.
      apply IH; lia. }
  specialize (Hloop (q - 1)%nat 1%nat [] out).
  replace (fuel - (1 - 1))%nat with fuel in Hloop by lia.
  apply Hloop; lia.
Qed.

(** X6: the loop has no bound of its own: on a catalogue where every page
    loads with items that can all be extracted, [scrape_books] never
    returns, whatever the number of iterations. *)
Theorem scrape_books_endless w out fuel :
  (∀ page, (1 ≤ page)%nat → continues w page) →
  scrape_books w fuel out = None.
Proof.
  intros Hall. unfold scrape_books.
  generalize (@nil book) as books. generalize out as out'.
  assert (1 ≤ 1)%nat as Hpage by lia. revert Hpage.
  generalize 1%nat at 2 3 as page.
  induction fuel as [|fuel IH]; intros page Hpage out' books; [done|].
  destruct (scrape_loop_continues w fuel page books out' (Hall page Hpage))
    as (new & n & ->).
  apply IH. lia.
Qed.
End FurtherPagination.

Lemma scrape_books_stops_witness :
  is_Some (BookPriceMonitor.scrape_books Sample.two_pages 3 []).
Proof.
  apply (scrape_books_stops (H := Binary64.binary64) Sample.two_pages [] 3 3).
  - lia.
  - intros (res & new & Hget & H404 & _).
    injection Hget as <-. by apply H404.
  - lia.
Defined.

Lemma scrape_books_endless_witness :
  BookPriceMonitor.scrape_books MoreSamples.endless 40 [] = None.
Proof.
  apply (scrape_books_endless (H := Binary64.binary64) MoreSamples.endless [] 40).
  intros page _. eexists _, _.
  split; [reflexivity|]. split; [done|]. split; [reflexivity|].
  split; [done | reflexivity].
Defined.

Section FurtherFetches.
Context `{PyFloat}.
Import BookPriceMonitor.

Lemma iterates_agree w1 w2 today page books out page' books' out' :
  iterates w1 today page books out page' books' out' →
  (∀ q, (page ≤ q < page')%nat →
     requests_get w2 (BASE_URL q) = requests_get w1 (BASE_URL q)) →
  iterates w2 today page books out page' books' out'.
Proof.
  induction 1 as [page books out
                 |page books out res new page' books' out'
                    Hget H404 Hstatus Hitems Hnew Hrest IH]; intros Hsame.
  - apply iterates_here.
  - pose proof (iterates_page_le _ _ _ _ _ _ _ _ Hrest) as Hle.
    eapply iterates_next; try done.
    + rewrite Hsame; [done | lia].
    + apply IH. intros q Hq. apply Hsame. lia.
Qed.

(** X7: the pages after the one that stops the loop are never fetched, and
    nothing is retried. Whenever [scrape_books] stops, it stops at some page
    [p], and its result is the same on every catalogue that answers the pages
    1 to [p] alike on the same day, with any number of iterations from [p]
    on. *)
Theorem later_pages_never_fetched w1 fuel out r :
  scrape_books w1 fuel out = Some r →
  ∃ p, (1 ≤ p)%nat ∧
    ∀ w2 fuel',
      today_isoformat w2 = today_isoformat w1 →
      (∀ q, (1 ≤ q ≤ p)%nat →
         requests_get w2 (BASE_URL q) = requests_get w1 (BASE_URL q)) →
      (p ≤ fuel')%nat →
      scrape_books w2 fuel' out = Some r.
Proof.
  destruct r as [r out']. unfold scrape_books at 1. intros Hloop.
  apply scrape_loop_inv in Hloop as (p & books & out0 & Hit & Hstop).
  exists p. split; [by eapply iterates_page_le|].
  intros w2 fuel' Htoday Hsame Hfuel.
  assert (iterates w2 (today_isoformat w2) 1 [] out p books out0) as Hit2.
  { rewrite Htoday. eapply iterates_agree; [done|].
    intros q Hq. apply Hsame. lia. }
  pose proof (iterates_page_le _ _ _ _ _ _ _ _ Hit) as Hp.
  rewrite (scrape_books_reaches _ _ _ _ _ _ Hit2 Hfuel).
  specialize (Hsame p ltac:(lia)).
  destruct Hstop as [(Hend & -> & ->)
                    |[(e & Hfail & -> & ->)
                     |(res & e & Hget & H404 & Hstatus & Hitems & -> & ->)]].
  - apply scrape_loop_end. unfold ends_pagination. by rewrite Hsame.
  - apply scrape_loop_error. unfold fetch_fails. by rewrite Hsame.
  - eapply scrape_loop_raise; try done; [by rewrite Hsame | by rewrite Htoday].
Qed.

Lemma string_length_append a b :
  String.length (a +:+ b) = (String.length a + String.length b)%nat.
Proof. induction a as [|c a IH]; simpl; [done | by rewrite IH]. Qed.

Lemma string_append_cancel_r a b s : a +:+ s = b +:+ s → a = b.
Proof.
  revert b. induction a as [|c a IH]; intros [|c' b] Heq; simpl in Heq.
  - done.
  - apply (f_equal String.length) in Heq. simpl in Heq.
    rewrite !string_length_append in Heq. simpl in Heq. lia.
  - apply (f_equal String.length) in Heq. simpl in Heq.
    rewrite !string_length_append in Heq. simpl in Heq. lia.
  - injection Heq as -> Heq. f_equal. by apply IH.
Qed.

(** X8: two pages never share a URL, so the answer of the site to one page
    says nothing about another page. *)
Theorem BASE_URL_page_unique page1 page2 :
  BASE_URL page1 = BASE_URL page2 → page1 = page2.
Proof.
  unfold BASE_URL. intros Hurl.
  apply String.app_inj, string_append_cancel_r in Hurl.
  by apply pretty_nat_inj in Hurl.
Qed.

Lemma scraped_total_snoc out m :
  scraped_total (out ++ [m])
  = (scraped_total out + match m with ScrapedPage _ n => n | _ => 0 end)%nat.
Proof. unfold scraped_total. rewrite sum_list_with_app. simpl. lia. Qed.

Lemma scrape_loop_total w today fuel : ∀ page books out books' out',
  scrape_loop w today fuel page books out = Some (Return books', out') →
  (scraped_total out' + length books = scraped_total out + length books')%nat.
Proof.
  induction fuel as [|fuel IH]; intros page books out books' out'; simpl; [done|].
  destruct (requests_get w (BASE_URL page)) as [e|res].
  { intros [= <- <-]. rewrite scraped_total_snoc. lia. }
  destruct (status_code res =? 404); [by intros [= <- <-]|].
  destruct (raise_for_status res) as [[]|[]]; try done;
    try (intros [= <- <-]; rewrite scraped_total_snoc; lia).
  destruct (product_pods res) as [|item items] eqn:Hitems; [by intros [= <- <-]|].
  destruct (mapM _ (item :: items)) as [new|e] eqn:Hnew; [|done].
  intros Hrest%IH. apply mapM_result_length in Hnew.
  rewrite scraped_total_snoc, length_app, Hnew in Hrest. lia.
Qed.

(** X9: the numbers printed agree. When the scrape returns a batch, the
    counts of the [Scraped page] lines add up to the size of the batch, which
    is the number [run_tracker] reports as saved and the number of rows it
    appends. *)
Theorem printed_counts_add_up w fuel fs books out :
  scrape_books w fuel [ScrapingBookData] = Some (Return books, out) →
  scraped_total out = length books ∧
  ∃ r, run_tracker w fuel fs = Some r ∧
    stdout r = out ++ [SavedBooks (scraped_total out)] ∧
    files r !! CSV_FILE
    = Some (default [fieldnames] (fs !! CSV_FILE) ++ (writerow <$> books)) ∧
    length (writerow <$> books) = scraped_total out.
Proof.
  intros Hscrape.
  assert (scraped_total out = length books) as Htotal.
  { apply scrape_loop_total in Hscrape.
    change (scraped_total [ScrapingBookData]) with 0%nat in Hscrape.
    simpl in Hscrape. lia. }
  split; [done|]. unfold run_tracker. rewrite Hscrape.
  eexists. split; [done|]. simpl. rewrite Htotal.
  split; [done|]. split; [apply save_to_csv_lookup | by rewrite length_fmap].
Qed.
End FurtherFetches.

Lemma later_pages_never_fetched_witness :
  ∃ p, (1 ≤ p)%nat ∧
    ∀ w2 fuel',
      today_isoformat w2 = today_isoformat Sample.two_pages →
      (∀ q, (1 ≤ q ≤ p)%nat →
         requests_get w2 (BookPriceMonitor.BASE_URL q)
         = requests_get Sample.two_pages (BookPriceMonitor.BASE_URL q)) →
      (p ≤ fuel')%nat →
      BookPriceMonitor.scrape_books w2 fuel' []
      = Some (Return [Sample.attic; Sample.velvet],
              [ScrapedPage 1 1; ScrapedPage 2 1]).
Proof.
  apply (later_pages_never_fetched (H := Binary64.binary64)
           Sample.two_pages 3 []
           (Return [Sample.attic; Sample.velvet],
            [ScrapedPage 1 1; ScrapedPage 2 1])).
  reflexivity.
Defined.

Lemma BASE_URL_page_unique_witness :
  BookPriceMonitor.BASE_URL 12 = "http://books.toscrape.com/catalogue/page-12.html" ∧
  12%nat = 12%nat.
Proof.
  split; [reflexivity|].
  apply (BASE_URL_page_unique 12 12). reflexivity.
Defined.

Lemma printed_counts_add_up_witness :
  scraped_total [ScrapingBookData; ScrapedPage 1 1; ScrapedPage 2 1] = 2%nat ∧
  ∃ r, BookPriceMonitor.run_tracker Sample.two_pages 3 ∅ = Some r ∧
    stdout r = [ScrapingBookData; ScrapedPage 1 1; ScrapedPage 2 1]
               ++ [SavedBooks (scraped_total
                                 [ScrapingBookData; ScrapedPage 1 1; ScrapedPage 2 1])] ∧
    files r !! "books.csv"
    = Some (default [BookPriceMonitor.fieldnames]
              ((∅ : gmap string csv_file) !! "books.csv")
            ++ (BookPriceMonitor.writerow <$> [Sample.attic; Sample.velvet])) ∧
    length (BookPriceMonitor.writerow <$> [Sample.attic; Sample.velvet])
    = scraped_total [ScrapingBookData; ScrapedPage 1 1; ScrapedPage 2 1].
Proof.
  apply (printed_counts_add_up (H := Binary64.binary64)
           Sample.two_pages 3 ∅ [Sample.attic; Sample.velvet]
           [ScrapingBookData; ScrapedPage 1 1; ScrapedPage 2 1]).
  reflexivity.
Defined.

(** ** The store written and read back *)

Section FurtherStore.
Context `{PyFloat}.
Import BookPriceMonitor.

(** X10: saving two batches one after the other leaves the store that saving
    them as one batch leaves, whether the file existed or not. *)
Theorem save_to_csv_batches_compose
    (data1 data2 : list book) filename (fs : gmap string csv_file) :
  save_to_csv data2 filename (save_to_csv data1 filename fs)
  = save_to_csv (data1 ++ data2) filename fs.
Proof.
  destruct (fs !! filename) as [f|] eqn:Hf.
  - rewrite (save_to_csv_existing data1 _ _ f Hf).
    rewrite (save_to_csv_existing data2 _ _ (f ++ (writerow <$> data1)))
      by apply lookup_insert_eq.
    rewrite (save_to_csv_existing (data1 ++ data2) _ _ f Hf).
    by rewrite insert_insert_eq, fmap_app, app_assoc.
  - rewrite (save_to_csv_missing data1 _ _ Hf).
    rewrite (save_to_csv_existing data2 _ _ (fieldnames :: (writerow <$> data1)))
      by apply lookup_insert_eq.
    rewrite (save_to_csv_missing (data1 ++ data2) _ _ Hf).
    by rewrite insert_insert_eq, fmap_app.
Qed.

Lemma DictReader_saved (data : list book) :
  DictReader (fieldnames :: (writerow <$> data))
  = (λ b, DictReader_row fieldnames (writerow b)) <$> data.
Proof.
  unfold DictReader.
  induction data as [|b data IH]; [done|].
  change (DictReader_row fieldnames (writerow b) ::
          (DictReader_row fieldnames <$> List.filter nonblank (writerow <$> data))
          = DictReader_row fieldnames (writerow b) ::
            ((λ b, DictReader_row fieldnames (writerow b)) <$> data)).
  by rewrite IH.
Qed.

Lemma saved_row_fields (b : book) :
  DictReader_row fieldnames (writerow b) !! "title" = Some (Some (title b)) ∧
  DictReader_row fieldnames (writerow b) !! "price"
  = Some (Some (str_of_float (price b))) ∧
  DictReader_row fieldnames (writerow b) !! "stock" = Some (Some (stock b)) ∧
  DictReader_row fieldnames (writerow b) !! "rating" = Some (Some (rating b)) ∧
  DictReader_row fieldnames (writerow b) !! "date" = Some (Some (date b)).
Proof. repeat split; vm_compute; reflexivity. Qed.

(** X11: what [save_to_csv] writes into a new store, [csv.DictReader] reads
    back: one row per record, in the order saved, whose five fields are the
    title, [str] of the price, the stock, the rating and the date of the
    record; the header is not read as a record. *)
Theorem saved_records_read_back
    (data : list book) filename (fs : gmap string csv_file) :
  fs !! filename = None →
  ∃ f, save_to_csv data filename fs !! filename = Some f ∧
    Forall2 (λ b row,
      getitem row "title" = Return (Some (title b)) ∧
      getitem row "price" = Return (Some (str_of_float (price b))) ∧
      getitem row "stock" = Return (Some (stock b)) ∧
      getitem row "rating" = Return (Some (rating b)) ∧
      getitem row "date" = Return (Some (date b)))
      data (DictReader f).
Proof.
  intros Hfs. eexists. split.
  - by rewrite (save_to_csv_missing _ _ _ Hfs), lookup_insert_eq.
  - rewrite DictReader_saved. apply Forall2_fmap_r, Forall_Forall2_diag.
    apply Forall_forall. intros b _.
    destruct (saved_row_fields b) as (Ht & Hp & Hs & Hr & Hd).
    unfold compose, getitem. by rewrite Ht, Hp, Hs, Hr, Hd.
Qed.

Lemma cheapest_saved_row (b : book) :
  float_of_str (str_of_float (price b)) = Some (price b) →
  cheapest_row (DictReader_row fieldnames (writerow b)) = Return (chart_entry b).
Proof.
  intros Hprice. destruct (saved_row_fields b) as (Ht & Hp & _).
  unfold cheapest_row, getitem. rewrite Ht, Hp. simpl. by rewrite Hprice.
Qed.

(** X12: on a store that one save created, when [float] reads back what
    [str] wrote of each price, the first chart shows the ten cheapest of the
    records saved: the titles and prices of the batch, sorted by price, cut
    after ten. *)
Theorem cheapest_chart_of_saved_batch
    (data : list book) filename (fs : gmap string csv_file) :
  fs !! filename = None →
  prices_round_trip data →
  plot_cheapest_books filename (save_to_csv data filename fs)
  = Return (take 10 (sorted float_lt snd (chart_entry <$> data))).
Proof.
  intros Hfs Hdata. unfold plot_cheapest_books.
  rewrite (save_to_csv_missing _ _ _ Hfs), lookup_insert_eq.
  cbv iota beta. rewrite DictReader_saved.
  rewrite (Forall2_mapM_result cheapest_row _ (chart_entry <$> data)); [done|].
  apply Forall2_fmap, Forall_Forall2_diag, Forall_forall.
  intros b Hb. apply cheapest_saved_row. by apply Hdata.
Qed.
End FurtherStore.

Section FurtherReports.
Context `{PyFloat}.
Import BookPriceMonitor.

Lemma saved_row_ready (b : book) :
  str_of_float (price b) ≠ EmptyString →
  float_of_str (str_of_float (price b)) = Some (price b) →
  priced (DictReader_row fieldnames (writerow b)) = true ∧
  date_of (DictReader_row fieldnames (writerow b)) = Some (date b) ∧
  price_of (DictReader_row fieldnames (writerow b)) = Some (price b).
Proof.
  intros Hstr Hfloat. destruct (saved_row_fields b) as (_ & Hp & _ & _ & Hd).
  unfold priced, date_of, price_of. rewrite Hp, Hd.
  split; [|done]. simpl. by destruct (str_of_float (price b)).
Qed.

Lemma prices_on_saved d (data : list book) :
  prices_round_trip data →
  prices_on (Some d) ((λ b, DictReader_row fieldnames (writerow b)) <$> data)
  = price <$> filter (λ b, date b = d) data.
Proof.
  induction data as [|b data IH]; intros Hdata; [done|].
  destruct (Hdata b ltac:(by left)) as [Hstr Hfloat].
  destruct (saved_row_ready b Hstr Hfloat) as (Hpriced & _ & Hprice).
  destruct (saved_row_fields b) as (_ & _ & _ & _ & Hdate).
  rewrite fmap_cons, prices_on_cons, IH, filter_cons
    by (intros b' Hb'; apply Hdata; by right).
  unfold prices_on. simpl. rewrite Hpriced, Hprice, Hdate. simpl.
  destruct (decide (date b = d)) as [->|Hne].
  - by rewrite bool_decide_eq_true_2.
  - rewrite bool_decide_eq_false_2; [done | congruence].
Qed.

(** X13: on a store that one save created, when [float] reads back what
    [str] wrote of each price, the second chart has one point for each date
    of the records saved, the dates ascending, and the point of a date is
    [sum(prices) / len(prices)] over the prices of the records of that date,
    in the order saved. *)
Theorem trends_chart_of_saved_batch
    (data : list book) filename (fs : gmap string csv_file) :
  fs !! filename = None →
  prices_round_trip data →
  ∃ ds,
    plot_price_trends filename (save_to_csv data filename fs)
    = Return (Some <$> ds,
              (λ d, mean (price <$> filter (λ b, date b = d) data)) <$> ds) ∧
    StronglySorted (λ a b, String.ltb a b = true) ds ∧
    (∀ d, d ∈ ds ↔ ∃ b, b ∈ data ∧ date b = d).
Proof.
  intros Hfs Hdata.
  assert (save_to_csv data filename fs !! filename
          = Some (fieldnames :: (writerow <$> data))) as Hf
    by (by rewrite (save_to_csv_missing _ _ _ Hfs), lookup_insert_eq).
  destruct (average_by_date filename _ _ Hf) as (ds & Hplot & Hsorted & _ & Hin & _).
  { rewrite DictReader_saved. apply Forall_fmap, Forall_forall. intros b Hb.
    destruct (Hdata b Hb) as [Hstr Hfloat].
    destruct (saved_row_ready b Hstr Hfloat) as (Hpriced & Hdate & Hprice).
    destruct (saved_row_fields b) as (_ & Hp & _).
    split; [by rewrite Hp | by rewrite Hdate, Hprice]. }
  exists ds. split; [|split; [done|]].
  - rewrite Hplot. do 2 f_equal. apply list_fmap_ext. intros i d _.
    by rewrite DictReader_saved, prices_on_saved.
  - intros d. rewrite Hin, DictReader_saved. split.
    + intros (row & (b & -> & Hb)%list_elem_of_fmap & _ & Hdate).
      destruct (Hdata b Hb) as [Hstr Hfloat].
      destruct (saved_row_ready b Hstr Hfloat) as (_ & Hdate' & _).
      exists b. split; [done | congruence].
    + intros (b & Hb & <-).
      destruct (Hdata b Hb) as [Hstr Hfloat].
      destruct (saved_row_ready b Hstr Hfloat) as (Hpriced & Hdate & _).
      eexists. split; [apply list_elem_of_fmap; by eexists | done].
Qed.

Lemma foldl_insert_other (kvs : list (string * string)) k :
  ∀ d : gmap string (option string),
  k ∉ kvs.*1 →
  foldl (λ d kv, <[kv.1 := Some kv.2]> d) d kvs !! k = d !! k.
Proof.
  induction kvs as [|[k' v] kvs IH]; intros d Hk; simpl; [done|].
  apply not_elem_of_cons in Hk as [Hne Hk].
  rewrite IH by done. by rewrite lookup_insert_ne.
Qed.

Lemma foldl_restval_other (ks : list string) k :
  ∀ d : gmap string (option string),
  k ∉ ks →
  foldl (λ d k, <[k := None]> d) d ks !! k = d !! k.
Proof.
  induction ks as [|k' ks IH]; intros d Hk; simpl; [done|].
  apply not_elem_of_cons in Hk as [Hne Hk].
  rewrite IH by done. by rewrite lookup_insert_ne.
Qed.

Lemma DictReader_row_missing hdr row k :
  k ∉ hdr → DictReader_row hdr row !! k = None.
Proof.
  intros Hk. unfold DictReader_row.
  rewrite foldl_restval_other, foldl_insert_other; [done| |].
  - intros ([k' v] & -> & Hin%elem_of_zip_l)%list_elem_of_fmap. done.
  - intros Hin. apply Hk. by eapply subseteq_drop.
Qed.

Lemma mapM_result_head_raise {A B} (f : A → result B) x l e :
  f x = Raise e → mapM f (x :: l) = Raise e.
Proof. intros Hx. simpl. by rewrite Hx. Qed.

Lemma cheapest_row_no_title hdr row :
  "title" ∉ hdr → cheapest_row (DictReader_row hdr row) = Raise KeyError.
Proof.
  intros Hk. unfold cheapest_row, getitem.
  by rewrite (DictReader_row_missing hdr row "title").
Qed.

Lemma trends_row_no_price d hdr row :
  "price" ∉ hdr → trends_row d (DictReader_row hdr row) = Raise KeyError.
Proof.
  intros Hk. unfold trends_row, getitem.
  by rewrite (DictReader_row_missing hdr row "price").
Qed.

(** X14: a store that was appended to an empty file has no header, and the
    reports take its first record for the header. With one record in it both
    charts are empty; with more, the first chart raises [KeyError] unless a
    field of the first record is the word [title], and the second chart
    raises [KeyError] unless one is the word [price]. *)
Theorem headerless_store_loses_first_record
    (b : book) filename (fs : gmap string csv_file) :
  fs !! filename = Some [] →
  (plot_cheapest_books filename (save_to_csv [b] filename fs) = Return [] ∧
   plot_price_trends filename (save_to_csv [b] filename fs) = Return ([], [])) ∧
  (∀ b' rest, "title" ∉ writerow b →
     plot_cheapest_books filename (save_to_csv (b :: b' :: rest) filename fs)
     = Raise KeyError) ∧
  (∀ b' rest, "price" ∉ writerow b →
     plot_price_trends filename (save_to_csv (b :: b' :: rest) filename fs)
     = Raise KeyError).
Proof.
  intros Hfs. split; [|split].
  - unfold plot_cheapest_books, plot_price_trends.
    by rewrite (save_to_csv_existing _ _ _ [] Hfs), lookup_insert_eq.
  - intros b' rest Htitle. unfold plot_cheapest_books.
    rewrite (save_to_csv_existing _ _ _ [] Hfs), lookup_insert_eq.
    cbv iota beta.
    change (DictReader ([] ++ (writerow <$> b :: b' :: rest)))
      with (DictReader_row (writerow b) (writerow b') ::
            (DictReader_row (writerow b)
               <$> List.filter nonblank (writerow <$> rest))).
    by rewrite (mapM_result_head_raise _ _ _ KeyError)
      by (by apply cheapest_row_no_title).
  - intros b' rest Hprice. unfold plot_price_trends.
    rewrite (save_to_csv_existing _ _ _ [] Hfs), lookup_insert_eq.
    cbv iota beta. unfold trends_rows.
    change (DictReader ([] ++ (writerow <$> b :: b' :: rest)))
      with (DictReader_row (writerow b) (writerow b') ::
            (DictReader_row (writerow b)
               <$> List.filter nonblank (writerow <$> rest))).
    cbn [foldl]. cbn [mbind result_bind].
    rewrite trends_row_no_price by done.
    by rewrite trends_raise_stays.
Qed.




End FurtherReports.

(** ** The text of an item *)

Section FurtherItems.
Context `{PyFloat}.
Import BookPriceMonitor.



















End FurtherItems.

(** ** The further properties on sample data *)

Lemma sample_prices_round_trip :
  prices_round_trip [Sample.attic; MoreSamples.soumission; Sample.velvet].
Proof.
  intros b Hb.
  repeat (apply elem_of_cons in Hb as [->|Hb]; [by vm_compute|]).
  by apply elem_of_nil in Hb.
Qed.

Lemma saved_records_read_back_witness :
  ∃ f, BookPriceMonitor.save_to_csv [Sample.attic; Sample.velvet] "books.csv" ∅
         !! "books.csv" = Some f ∧
    Forall2 (λ b row,
      getitem row "title" = Return (Some (title b)) ∧
      getitem row "price" = Return (Some (str_of_float (price b))) ∧
      getitem row "stock" = Return (Some (stock b)) ∧
      getitem row "rating" = Return (Some (rating b)) ∧
      getitem row "date" = Return (Some (date b)))
      [Sample.attic; Sample.velvet] (DictReader f).
Proof.
  apply (saved_records_read_back (H := Binary64.binary64)
           [Sample.attic; Sample.velvet] "books.csv" ∅).
  reflexivity.
Defined.

Lemma cheapest_chart_of_saved_batch_witness :
  BookPriceMonitor.plot_cheapest_books "books.csv"
    (BookPriceMonitor.save_to_csv
       [Sample.attic; MoreSamples.soumission; Sample.velvet] "books.csv" ∅)
  = Return (take 10 (sorted float_lt snd
              (chart_entry <$> [Sample.attic; MoreSamples.soumission; Sample.velvet]))).
Proof.
  apply (cheapest_chart_of_saved_batch (H := Binary64.binary64)
           [Sample.attic; MoreSamples.soumission; Sample.velvet] "books.csv" ∅).
  - reflexivity.
  - apply sample_prices_round_trip.
Defined.

(** The two charts of that store. *)
Example charts_of_saved_batch :
  BookPriceMonitor.plot_cheapest_books "books.csv"
    (BookPriceMonitor.save_to_csv
       [Sample.attic; MoreSamples.soumission; Sample.velvet] "books.csv" ∅)
  = Return [(Some "Soumission", Binary64.quotient 501 1);
            (Some "A Light in the Attic", Binary64.quotient 5177 2);
            (Some "Tipping the Velvet", Binary64.quotient 5374 2)] ∧
  BookPriceMonitor.plot_price_trends "books.csv"
    (BookPriceMonitor.save_to_csv
       [Sample.attic; MoreSamples.soumission; Sample.velvet] "books.csv" ∅)
  = Return ([Some "2024-01-02"; Some "2024-01-03"],
            [Binary64.quotient 501 1; Binary64.quotient 52755 3]).
Proof. split; vm_compute; reflexivity. Qed.

Lemma trends_chart_of_saved_batch_witness :
  ∃ ds,
    BookPriceMonitor.plot_price_trends "books.csv"
      (BookPriceMonitor.save_to_csv
         [Sample.attic; MoreSamples.soumission; Sample.velvet] "books.csv" ∅)
    = Return (Some <$> ds,
              (λ d, mean (price <$> filter (λ b, date b = d)
                            [Sample.attic; MoreSamples.soumission; Sample.velvet]))
                <$> ds) ∧
    StronglySorted (λ a b, String.ltb a b = true) ds ∧
    (∀ d, d ∈ ds ↔
       ∃ b, b ∈ [Sample.attic; MoreSamples.soumission; Sample.velvet] ∧ date b = d).
Proof.
  apply (trends_chart_of_saved_batch (H := Binary64.binary64)
           [Sample.attic; MoreSamples.soumission; Sample.velvet] "books.csv" ∅).
  - reflexivity.
  - apply sample_prices_round_trip.
Defined.

Lemma headerless_store_loses_first_record_witness :
  (BookPriceMonitor.plot_cheapest_books "books.csv"
     (BookPriceMonitor.save_to_csv [Sample.attic] "books.csv" {[ "books.csv" := [] ]})
   = Return [] ∧
   BookPriceMonitor.plot_price_trends "books.csv"
     (BookPriceMonitor.save_to_csv [Sample.attic] "books.csv" {[ "books.csv" := [] ]})
   = Return ([], [])) ∧
  BookPriceMonitor.plot_cheapest_books "books.csv"
    (BookPriceMonitor.save_to_csv [Sample.attic; Sample.velvet] "books.csv"
       {[ "books.csv" := [] ]})
  = Raise KeyError ∧
  BookPriceMonitor.plot_price_trends "books.csv"
    (BookPriceMonitor.save_to_csv [Sample.attic; Sample.velvet] "books.csv"
       {[ "books.csv" := [] ]})
  = Raise KeyError.
Proof.
  assert (({[ "books.csv" := [] ]} : gmap string csv_file) !! "books.csv"
          = Some []) as Hfs by reflexivity.
  destruct (headerless_store_loses_first_record (H := Binary64.binary64)
              Sample.attic "books.csv" {[ "books.csv" := [] ]} Hfs)
    as (Hone & Hcheapest & Htrends).
  split; [exact Hone|]. split.
  - apply Hcheapest. apply (bool_decide_unpack _). vm_compute. exact I.
  - apply Htrends. apply (bool_decide_unpack _). vm_compute. exact I.
Defined.




(** ** More on the store and the first chart *)

Section FurtherInvariants.
Context `{PyFloat}.
Import BookPriceMonitor.

Lemma save_to_csv_other_file (data : list book) filename name
    (fs : gmap string csv_file) :
  name ≠ filename → save_to_csv data filename fs !! name = fs !! name.
Proof. intros Hne. unfold save_to_csv. by rewrite lookup_insert_ne. Qed.

(** X18: a run only appends. However the scrape ends, [run_tracker] leaves
    every other file as it was and keeps the rows the store file held, in
    place, before the rows it adds; each row it adds has five fields, the
    last of which is the date of the run. *)
Theorem run_only_appends w fuel (fs : gmap string csv_file) r :
  run_tracker w fuel fs = Some r →
  (∀ name, name ≠ CSV_FILE → files r !! name = fs !! name) ∧
  (∀ f, fs !! CSV_FILE = Some f →
     ∃ rows, files r !! CSV_FILE = Some (f ++ rows) ∧
       Forall (λ row, length row = 5%nat ∧
                      row !! 4%nat = Some (today_isoformat w)) rows).
Proof.
  unfold run_tracker.
  destruct (scrape_books w fuel [ScrapingBookData]) as [[[books|e] out]|] eqn:Hscrape;
    [| |done]; intros [= <-]; simpl.
  - split; [intros name Hne; by apply save_to_csv_other_file|].
    intros f Hf. exists (writerow <$> books).
    split; [by rewrite (save_to_csv_existing _ _ _ f Hf), lookup_insert_eq|].
    apply Forall_fmap.
    assert (Forall (λ b, date b = today_isoformat w) books) as Hdates.
    { unfold scrape_books in Hscrape.
      eapply scrape_loop_date; [|exact Hscrape]. constructor. }
    eapply Forall_impl; [exact Hdates|].
    intros b Hb. simpl. by rewrite Hb.
  - split; [done|]. intros f Hf. exists []. by rewrite app_nil_r.
Qed.

Lemma blank_cheapest_row row :
  float_of_str EmptyString = None →
  blank_price row = true → raises (cheapest_row row).
Proof.
  intros Hempty. unfold blank_price, cheapest_row, getitem.
  destruct (row !! "title"); simpl; [|by eexists].
  destruct (row !! "price") as [[[|c s]|]|]; simpl; try done; intros _.
  - rewrite Hempty. by eexists.
  - by eexists.
Qed.

(** X19: [plot_cheapest_books] has no test of the price field. When [float]
    rejects the empty string, as it does, a single record whose price is
    empty or missing anywhere in the store makes the first chart raise. *)
Theorem blank_price_breaks_cheapest_chart
    filename (fs : gmap string csv_file) f row :
  float_of_str EmptyString = None →
  fs !! filename = Some f →
  row ∈ DictReader f →
  blank_price row = true →
  raises (plot_cheapest_books filename fs).
Proof.
  intros Hempty Hf Hrow Hblank. unfold plot_cheapest_books. rewrite Hf.
  destruct (mapM_result_raises cheapest_row _ _ Hrow
              (blank_cheapest_row _ Hempty Hblank)) as [e ->].
  by eexists.
Qed.

(** X20: the first chart never has more than ten bars, and every bar is the
    title and the price of a record of the store: when
    [plot_cheapest_books] returns, its output has [min 10 n] entries for a
    store of [n] records, each of them read from some record, whatever the
    prices are. *)
Theorem cheapest_chart_bars filename (fs : gmap string csv_file) out :
  plot_cheapest_books filename fs = Return out →
  ∃ f, fs !! filename = Some f ∧
    length out = (10 `min` length (DictReader f))%nat ∧
    (length out ≤ 10)%nat ∧
    ∀ e, e ∈ out → ∃ row, row ∈ DictReader f ∧ cheapest_row row = Return e.
Proof.
  unfold plot_cheapest_books.
  destruct (fs !! filename) as [f|]; [|done].
  destruct (mapM cheapest_row (DictReader f)) as [books|] eqn:Hbooks;
    simpl; [|done].
  intros [= <-]. exists f. split; [done|].
  pose proof (mapM_result_length _ _ _ Hbooks) as Hlen.
  rewrite length_take, sorted_length, Hlen.
  split; [done|]. split; [lia|].
  intros e He%elem_of_take.
  destruct He as (i & He & _).
  apply list_elem_of_lookup_2 in He. rewrite sorted_perm in He.
  apply mapM_result_Forall2 in Hbooks.
  apply list_elem_of_lookup in He as [j Hj].
  destruct (Forall2_lookup_r _ _ _ _ _ Hbooks Hj) as (row & Hrow & Hentry).
  exists row. split; [by eapply list_elem_of_lookup_2 | done].
Qed.
End FurtherInvariants.

Lemma run_only_appends_witness :
  (∀ name, name ≠ BookPriceMonitor.CSV_FILE →
     <["books.csv" :=
         [Sample.header;
          ["Soumission"; "50.1"; "In stock"; "One"; "2024-01-02"];
          ["A Light in the Attic"; "51.77"; "In stock"; "Three"; "2024-01-03"]]]>
       Sample.one_row !! name
     = Sample.one_row !! name) ∧
  (∀ f, Sample.one_row !! BookPriceMonitor.CSV_FILE = Some f →
     ∃ rows,
       <["books.csv" :=
           [Sample.header;
            ["Soumission"; "50.1"; "In stock"; "One"; "2024-01-02"];
            ["A Light in the Attic"; "51.77"; "In stock"; "Three"; "2024-01-03"]]]>
         Sample.one_row !! BookPriceMonitor.CSV_FILE
       = Some (f ++ rows) ∧
       Forall (λ row, length row = 5%nat ∧ row !! 4%nat = Some "2024-01-03") rows).
Proof.
  refine (run_only_appends (H := Binary64.binary64) Sample.timeout_on_page_2 2
           Sample.one_row
           (@Build_run Binary64.binary64
              (<["books.csv" :=
                  [Sample.header;
                   ["Soumission"; "50.1"; "In stock"; "One"; "2024-01-02"];
                   ["A Light in the Attic"; "51.77"; "In stock"; "Three";
                    "2024-01-03"]]]> Sample.one_row)
              [ScrapingBookData; ScrapedPage 1 1;
               ErrorFetchingPage 2 Timeout; SavedBooks 1]
              (Return
                 ([(Some "Soumission", Binary64.quotient 501 1);
                   (Some "A Light in the Attic", Binary64.quotient 5177 2)],
                  ([Some "2024-01-02"; Some "2024-01-03"],
                   [Binary64.quotient 501 1; Binary64.quotient 5177 2]))))
            _).
  reflexivity.
Defined.

Lemma blank_price_breaks_cheapest_chart_witness :
  raises (BookPriceMonitor.plot_cheapest_books "books.csv" Sample.with_blank_price).
Proof.
  apply (blank_price_breaks_cheapest_chart (H := Binary64.binary64)
           "books.csv" Sample.with_blank_price
           (default [] (Sample.with_blank_price !! "books.csv"))
           (DictReader_row Sample.header
              ["Sapiens"; EmptyString; "In stock"; "Five"; "2024-01-02"])).
  - reflexivity.
  - reflexivity.
  - apply elem_of_cons. right. apply elem_of_cons. by left.
  - vm_compute. reflexivity.
Defined.

Lemma cheapest_chart_bars_witness :
  ∃ f, Sample.twelve !! "books.csv" = Some f ∧
    length (take 10 (sorted float_lt snd Sample.twelve_entries))
    = (10 `min` length (DictReader f))%nat ∧
    (length (take 10 (sorted float_lt snd Sample.twelve_entries)) ≤ 10)%nat ∧
    ∀ e, e ∈ take 10 (sorted float_lt snd Sample.twelve_entries) →
      ∃ row, row ∈ DictReader f ∧ BookPriceMonitor.cheapest_row row = Return e.
Proof.
  apply (cheapest_chart_bars (H := Binary64.binary64) "books.csv" Sample.twelve).
  vm_compute. reflexivity.
Defined.
